(** * The Alexa skill endpoint [api/alexa.py]: model and properties

    The endpoint receives a voice-platform envelope over HTTP, routes it by
    request type and intent name, asks a text-completion service for the one
    intent that needs it, and answers with a speech response.

    The Python functions are embedded as Rocq functions of the same names.
    Python values that travel through the handler (decoded JSON, response
    dictionaries) are terms of [value]; exceptions, logging and the outbound
    completion call are threaded through the monad [M].  The JSON codec and
    the completion client are libraries the module imports: the functions
    are parameterised by them. *)

From Stdlib Require Import ZArith List String Ascii Bool Lia QArith.
From Stdlib Require Import Floats.SpecFloat Numbers.DecimalString.
Import ListNotations.

Local Open Scope string_scope.
Local Open Scope Z_scope.

(** ** Python values *)

Module Py.

(** What [json.loads] can produce, which is also what the handlers build:
    [None], booleans, integers, floats, strings, lists and dictionaries.
    A dictionary keeps its items in insertion order; [dict_get] reads the
    first item stored under a key. *)
#[warnings="-register-all"]
Inductive value : Type :=
| VNone
| VBool (b : bool)
| VInt (z : Z)
| VFloat (f : spec_float)
| VStr (s : string)
| VList (l : list value)
| VDict (d : list (string * value)).

(** The exceptions the module can meet.  [KeyError], [TypeError],
    [AttributeError] and [IndexError] come from the interpreter itself;
    [JSONDecodeError] from the decoder; [ExternalError] stands for whatever a
    collaborator raises (the completion client, the codec), with the text
    [str(e)] gives for it. *)
Inductive exn : Type :=
| KeyError (key : string)
| TypeError
| AttributeError
| IndexError
| JSONDecodeError
| ExternalError (text : string).

(** Result of evaluating a Python expression. *)
Inductive outcome (A : Type) : Type :=
| Return (a : A)
| Raise (e : exn).
Arguments Return {A} a.
Arguments Raise {A} e.

Fixpoint dict_get (k : string) (d : list (string * value)) : option value :=
  match d with
  | [] => None
  | (k', v) :: d' => if String.eqb k k' then Some v else dict_get k d'
  end.

(** [d[k] = v]: storing under a key that is present replaces the value in
    place, a new key goes to the end. *)
Fixpoint dict_set (k : string) (v : value) (d : list (string * value))
  : list (string * value) :=
  match d with
  | [] => [(k, v)]
  | (k', v') :: d' =>
      if String.eqb k k' then (k, v) :: d' else (k', v') :: dict_set k v d'
  end.

(** [v[k1][k2]...] where every step finds a dictionary holding the key. *)
Fixpoint dig (v : value) (path : list string) : option value :=
  match path with
  | [] => Some v
  | k :: path' =>
      match v with
      | VDict d =>
          match dict_get k d with
          | Some x => dig x path'
          | None => None
          end
      | _ => None
      end
  end.

(** [v[k]] with a string key [k]: only a dictionary can be indexed by a
    string; a missing key is a [KeyError], anything else a [TypeError]. *)
Definition subscript (v : value) (k : string) : outcome value :=
  match v with
  | VDict d =>
      match dict_get k d with
      | Some x => Return x
      | None => Raise (KeyError k)
      end
  | _ => Raise TypeError
  end.

(** [v.get(k, default)]: only dictionaries have the method. *)
Definition get (v : value) (k : string) (default : value) : outcome value :=
  match v with
  | VDict d =>
      match dict_get k d with
      | Some x => Return x
      | None => Return default
      end
  | _ => Raise AttributeError
  end.

Definition float_is_zero (f : spec_float) : bool :=
  match f with
  | S754_zero _ => true
  | _ => false
  end.

(** Truth value of an object, as [not v] and [if v] test it. *)
Definition truthy (v : value) : bool :=
  match v with
  | VNone => false
  | VBool b => b
  | VInt z => negb (z =? 0)
  | VFloat f => negb (float_is_zero f)
  | VStr s => negb (String.eqb s "")
  | VList l => match l with [] => false | _ => true end
  | VDict d => match d with [] => false | _ => true end
  end.

(** [v == 'literal']: true exactly for that string. *)
Definition eq_str (v : value) (lit : string) : bool :=
  match v with
  | VStr s => String.eqb s lit
  | _ => false
  end.

(** [len(s)] *)
Definition len (s : string) : Z := Z.of_nat (String.length s).

(** [s[:n]] for a non-negative [n]. *)
Definition slice_to (s : string) (n : Z) : string :=
  String.substring 0 (Z.to_nat n) s.

(** [str.isspace] on one character, for the code points below 256. *)
Definition is_space (c : ascii) : bool :=
  let n := Z.of_N (N_of_ascii c) in
  ((9 <=? n) && (n <=? 13)) || ((28 <=? n) && (n <=? 32))
  || (n =? 133) || (n =? 160).

Fixpoint lstrip (s : string) : string :=
  match s with
  | EmptyString => EmptyString
  | String c s' => if is_space c then lstrip s' else s
  end.

Fixpoint rstrip (s : string) : string :=
  match s with
  | EmptyString => EmptyString
  | String c s' =>
      match rstrip s' with
      | EmptyString => if is_space c then EmptyString else String c EmptyString
      | r => String c r
      end
  end.

(** [s.strip()] *)
Definition strip (s : string) : string := rstrip (lstrip s).

End Py.
Import Py.

(** ** Effects: exceptions, the log and the outbound call *)

(** The request sent to the completion service. *)
Record completion_request : Type := {
  model : string;
  messages : list (string * value);
  max_tokens : Z;
  temperature : Q
}.

(** What the service answers: [response.choices[i].message.content]. *)
Record chat_message : Type := { content : option string }.
Record choice : Type := { message : chat_message }.
Record chat_completion : Type := { choices : list choice }.

(** What a run of the handler does to the outside world, oldest first:
    [logger.error(f"{prefix}{str(e)}")] and calls of the completion
    service. *)
Inductive event : Type :=
| LogError (prefix : string) (e : exn)
| ChatCompletion (rq : completion_request).

Definition trace : Type := list event.

(** A computation reads the trace so far and gives back a result or an
    exception together with the extended trace. *)
Definition M (A : Type) : Type := trace -> outcome A * trace.

Definition ret {A} (a : A) : M A := fun t => (Return a, t).

Definition raise {A} (e : exn) : M A := fun t => (Raise e, t).

Definition bind {A B} (m : M A) (k : A -> M B) : M B :=
  fun t =>
    match m t with
    | (Return a, t') => k a t'
    | (Raise e, t') => (Raise e, t')
    end.

Definition lift {A} (o : outcome A) : M A := fun t => (o, t).

Definition emit (ev : event) : M unit := fun t => (Return tt, (t ++ [ev])%list).

(** [try: m  except Exception as e: h e] *)
Definition try_except {A} (m : M A) (h : exn -> M A) : M A :=
  fun t =>
    match m t with
    | (Return a, t') => (Return a, t')
    | (Raise e, t') => h e t'
    end.

Definition logger_error (prefix : string) (e : exn) : M unit :=
  emit (LogError prefix e).

Declare Scope py_scope.
Delimit Scope py_scope with py.
Notation "x <- m ;; k" := (bind m (fun x => k))
  (at level 61, m at next level, right associativity) : py_scope.
Notation "m ;;; k" := (bind m (fun _ => k))
  (at level 61, right associativity) : py_scope.
Local Open Scope py_scope.

(** ** The module [api/alexa.py] *)

Module Alexa.

Definition nl : string := String "010" EmptyString.
Definition dq : string := String "034" EmptyString.
Definition indent : string := "        ".

(** The triple-quoted [system_prompt] of [generate_ai_response], line by
    line as it stands in the file. *)
Definition system_prompt : string :=
  "You are a helpful AI assistant integrated with Alexa. " ++ nl ++
  indent ++ nl ++
  indent ++ "Important guidelines:" ++ nl ++
  indent ++ "- Keep responses concise and conversational (2-3 sentences max)" ++ nl ++
  indent ++ "- Speak naturally as if talking to someone" ++ nl ++
  indent ++ "- Avoid long lists or complex formatting" ++ nl ++
  indent ++ "- Be helpful and friendly" ++ nl ++
  indent ++ "- If you need to provide multiple items, speak them naturally" ++ nl ++
  indent ++ "- Don't use phrases like " ++ dq ++ "Here's what I found" ++ dq ++
    " - just give the information" ++ nl ++
  indent ++ nl ++
  indent ++ "The user is speaking to you through Alexa, so respond as if you're having a conversation.".

Definition fallback_text : string :=
  "I'm having trouble connecting to my knowledge base right now. Please try again in a moment.".

Definition plain_text (text : value) : value :=
  VDict [("type", VStr "PlainText"); ("text", text)].

Definition create_error_response (message : string) : value :=
  VDict [("version", VStr "1.0");
         ("response",
          VDict [("outputSpeech", plain_text (VStr message));
                 ("shouldEndSession", VBool false)])].

Definition handle_session_ended_request : value :=
  VDict [("version", VStr "1.0"); ("response", VDict [])].

Definition handle_stop_intent : value :=
  VDict [("version", VStr "1.0");
         ("response",
          VDict [("outputSpeech", plain_text (VStr "Goodbye!"));
                 ("shouldEndSession", VBool true)])].

Definition handle_help_intent : value :=
  let help_text :=
    "I'm your AI assistant. You can ask me questions, get information, or have a conversation. Just say what you need help with!" in
  VDict [("version", VStr "1.0");
         ("response",
          VDict [("outputSpeech", plain_text (VStr help_text));
                 ("shouldEndSession", VBool false)])].

Definition handle_launch_request : value :=
  let speech_text := "Hello! I'm your AI assistant. How can I help you today?" in
  VDict [("version", VStr "1.0");
         ("response",
          VDict [("outputSpeech", plain_text (VStr speech_text));
                 ("reprompt",
                  VDict [("outputSpeech",
                          plain_text (VStr "What would you like me to help you with?"))]);
                 ("shouldEndSession", VBool false)])].

(** The request object handed over by the hosting platform: [request.method],
    [request.body] when the object has that attribute, and [request.json]
    when it has that one. *)
Record http_request : Type := {
  method : string;
  body : option string;
  json : option value
}.

(** The keyword arguments of the completion call in
    [generate_ai_response]. *)
Definition chat_request (user_query : value) : completion_request :=
  {| model := "gpt-4o-mini";
     messages := [("system", VStr system_prompt); ("user", user_query)];
     max_tokens := 150;
     temperature := 7 # 10 |}.

(** [user_query], the first two statements of [handle_chat_intent]. *)
Definition chat_user_query (alexa_request : value) : M value :=
  rq <- lift (subscript alexa_request "request") ;;
  intent <- lift (subscript rq "intent") ;;
  slots <- lift (get intent "slots" (VDict [])) ;;
  query <- lift (get slots "query" (VDict [])) ;;
  lift (get query "value" (VStr "")).

(** [user_id], the two statements under [# Get session info for context]. *)
Definition chat_user_id (alexa_request : value) : M value :=
  session <- lift (get alexa_request "session" (VDict [])) ;;
  user <- lift (get session "user" (VDict [])) ;;
  lift (get user "userId" (VStr "unknown")).

Section Handlers.

(** The imported libraries: [json.loads], [json.dumps] and
    [client.chat.completions.create]. *)
Variable json_loads : string -> outcome value.
Variable json_dumps : value -> string.
Variable chat_completions_create : completion_request -> outcome chat_completion.

(** [response.choices[0]] *)
Definition first_choice (r : chat_completion) : outcome choice :=
  match choices r with
  | c :: _ => Return c
  | [] => Raise IndexError
  end.

(** [....message.content.strip()]: [content] may be [None], which has no
    [strip]. *)
Definition content_strip (c : choice) : outcome string :=
  match content (message c) with
  | Some s => Return (strip s)
  | None => Raise AttributeError
  end.

(** The call [client.chat.completions.create(...)]: it is recorded in the
    trace and answered by the service. *)
Definition create (rq : completion_request) : M chat_completion :=
  emit (ChatCompletion rq) ;;;
  lift (chat_completions_create rq).

Definition generate_ai_response (user_query user_id : value) : M string :=
  try_except
    (response <- create (chat_request user_query) ;;
     c <- lift (first_choice response) ;;
     ai_response <- lift (content_strip c) ;;
     let ai_response :=
       if len ai_response >? 8000
       then slice_to ai_response 7900 ++ "..."
       else ai_response in
     ret ai_response)
    (fun e =>
       logger_error "OpenAI API error: " e ;;;
       ret fallback_text).

Definition handle_chat_intent (alexa_request : value) : M value :=
  try_except
    (user_query <- chat_user_query alexa_request ;;
     if negb (truthy user_query)
     then ret (create_error_response
                 "I didn't catch what you said. Could you repeat that?")
     else
       user_id <- chat_user_id alexa_request ;;
       ai_response <- generate_ai_response user_query user_id ;;
       ret (VDict [("version", VStr "1.0");
                   ("response",
                    VDict [("outputSpeech", plain_text (VStr ai_response));
                           ("shouldEndSession", VBool false)])]))
    (fun e =>
       logger_error "Error in chat intent: " e ;;;
       ret (create_error_response
              "Sorry, I had trouble processing your request.")).

Definition handle_intent_request (alexa_request : value) : M value :=
  rq <- lift (subscript alexa_request "request") ;;
  intent <- lift (subscript rq "intent") ;;
  intent_name <- lift (subscript intent "name") ;;
  if eq_str intent_name "ChatIntent" then handle_chat_intent alexa_request
  else if eq_str intent_name "AMAZON.HelpIntent" then ret handle_help_intent
  else if eq_str intent_name "AMAZON.CancelIntent"
          || eq_str intent_name "AMAZON.StopIntent"
       then ret handle_stop_intent
  else ret (create_error_response "I didn't understand that request.").

Definition process_alexa_request (alexa_request : value) : M value :=
  rq <- lift (subscript alexa_request "request") ;;
  request_type <- lift (subscript rq "type") ;;
  if eq_str request_type "LaunchRequest" then ret handle_launch_request
  else if eq_str request_type "IntentRequest"
       then handle_intent_request alexa_request
  else if eq_str request_type "SessionEndedRequest"
       then ret handle_session_ended_request
  else ret (create_error_response "Unknown request type").

(** The speech document of the [except] branch of [handler]. *)
Definition apology : value :=
  VDict [("version", VStr "1.0");
         ("response",
          VDict [("outputSpeech",
                  plain_text
                    (VStr "Sorry, I encountered an error. Please try again."));
                 ("shouldEndSession", VBool true)])].

(** [json.loads(request.body) if hasattr(request, 'body') else request.json] *)
Definition request_document (request : http_request) : M value :=
  match body request with
  | Some b => lift (json_loads b)
  | None =>
      match json request with
      | Some v => ret v
      | None => raise AttributeError
      end
  end.

(** The body of the [try] block of [handler]. *)
Definition handler_try (request : http_request) : M value :=
  if negb (String.eqb (method request) "POST")
  then ret (VDict [("statusCode", VInt 405);
                   ("body",
                    VStr (json_dumps
                            (VDict [("error", VStr "Method not allowed")])))])
  else
    alexa_request <- request_document request ;;
    r <- lift (get alexa_request "request" VNone) ;;
    if negb (truthy r)
    then ret (VDict [("statusCode", VInt 400);
                     ("body",
                      VStr (json_dumps
                              (VDict [("error",
                                       VStr "Invalid Alexa request")])))])
    else
      response <- process_alexa_request alexa_request ;;
      ret (VDict [("statusCode", VInt 200);
                  ("headers",
                   VDict [("Content-Type", VStr "application/json")]);
                  ("body", VStr (json_dumps response))]).

Definition handler (request : http_request) : M value :=
  try_except
    (handler_try request)
    (fun e =>
       logger_error "Error processing request: " e ;;;
       ret (VDict [("statusCode", VInt 500);
                   ("body", VStr (json_dumps apology))])).

End Handlers.

End Alexa.
Import Alexa.

(** ** A reference codec

    [json.loads] and [json.dumps] are parameters of the handlers.  To run
    the handlers on concrete requests this module supplies a codec for them:
    an encoder with the defaults of [json.dumps] (items separated by a comma
    and a space, keys by a colon and a space, everything outside printable
    ASCII escaped) and a decoder for the documents without floats and
    without escape sequences, which rejects every other text. *)

Module Codec.

Definition dec (z : Z) : string :=
  DecimalString.NilEmpty.string_of_int (Z.to_int z).

Definition hex_digit (n : N) : ascii :=
  if (n <? 10)%N then ascii_of_N (48 + n) else ascii_of_N (87 + n).

(** One character inside a JSON string literal. *)
Definition escape_char (c : ascii) : string :=
  let n := N_of_ascii c in
  if (n =? 34)%N then "\" ++ dq
  else if (n =? 92)%N then "\\"
  else if (n =? 10)%N then "\n"
  else if (n =? 13)%N then "\r"
  else if (n =? 9)%N then "\t"
  else if (n =? 8)%N then "\b"
  else if (n =? 12)%N then "\f"
  else if ((n <? 32) || (126 <? n))%N
       then "\u00" ++ String (hex_digit (n / 16)) (String (hex_digit (n mod 16)) EmptyString)
  else String c EmptyString.

Fixpoint escape (s : string) : string :=
  match s with
  | EmptyString => EmptyString
  | String c s' => escape_char c ++ escape s'
  end.

Definition quote (s : string) : string := dq ++ escape s ++ dq.

Fixpoint zeros (n : nat) : string :=
  match n with
  | O => EmptyString
  | S n' => String "0" (zeros n')
  end.

(** Drops the zeros at the end, keeping one digit. *)
Fixpoint trim_zeros (s : string) : string :=
  match s with
  | EmptyString => EmptyString
  | String c s' =>
      match trim_zeros s' with
      | EmptyString =>
          if Ascii.eqb c "0" then EmptyString else String c EmptyString
      | r => String c r
      end
  end.

(** The decimal expansion of [m * 2^e], which is finite.  CPython prints the
    shortest decimal that reads back as the same float; the full expansion
    reads back as the same float as well. *)
Definition decimal_expansion (m e : Z) : string :=
  if 0 <=? e then dec (m * 2 ^ e) ++ ".0"
  else
    let k := - e in
    let frac := dec ((m mod 2 ^ k) * 5 ^ k) in
    let digits := zeros (Z.to_nat k - String.length frac) ++ frac in
    dec (m / 2 ^ k) ++ "." ++
    match trim_zeros digits with
    | EmptyString => "0"
    | d => d
    end.

Definition float_repr (f : spec_float) : string :=
  match f with
  | S754_zero false => "0.0"
  | S754_zero true => "-0.0"
  | S754_infinity false => "Infinity"
  | S754_infinity true => "-Infinity"
  | S754_nan => "NaN"
  | S754_finite s m e =>
      (if s then "-" else "") ++ decimal_expansion (Zpos m) e
  end.

Fixpoint join (sep : string) (l : list string) : string :=
  match l with
  | [] => EmptyString
  | [x] => x
  | x :: l' => x ++ sep ++ join sep l'
  end.

Fixpoint dumps (v : value) : string :=
  match v with
  | VNone => "null"
  | VBool true => "true"
  | VBool false => "false"
  | VInt z => dec z
  | VFloat f => float_repr f
  | VStr s => quote s
  | VList l => "[" ++ join ", " (map dumps l) ++ "]"
  | VDict d =>
      "{" ++ join ", " (map (fun kv => quote (fst kv) ++ ": " ++ dumps (snd kv)) d)
      ++ "}"
  end.

(** *** Decoder *)

Definition is_ws (c : ascii) : bool :=
  let n := N_of_ascii c in
  ((n =? 32) || (n =? 9) || (n =? 10) || (n =? 13))%N.

Fixpoint skip_ws (s : string) : string :=
  match s with
  | String c s' => if is_ws c then skip_ws s' else s
  | EmptyString => EmptyString
  end.

(** [expect p s] is what follows [p] when [s] starts with [p]. *)
Fixpoint expect (p s : string) : option string :=
  match p, s with
  | EmptyString, _ => Some s
  | String a p', String b s' => if Ascii.eqb a b then expect p' s' else None
  | _, EmptyString => None
  end.

(** The characters up to the closing quote; a backslash or a control
    character ends the attempt. *)
Fixpoint scan_string (s : string) : option (string * string) :=
  match s with
  | EmptyString => None
  | String c s' =>
      let n := N_of_ascii c in
      if (n =? 34)%N then Some (EmptyString, s')
      else if ((n =? 92) || (n <? 32))%N then None
      else
        match scan_string s' with
        | Some (str, r) => Some (String c str, r)
        | None => None
        end
  end.

Definition is_digit (c : ascii) : bool :=
  let n := N_of_ascii c in ((48 <=? n) && (n <=? 57))%N.

Fixpoint scan_digits (acc : Z) (s : string) : Z * string :=
  match s with
  | String c s' =>
      if is_digit c
      then scan_digits (10 * acc + (Z.of_N (N_of_ascii c) - 48)) s'
      else (acc, s)
  | EmptyString => (acc, s)
  end.

(** An integer literal: [0] or a digit string without leading zero; a
    fraction or an exponent after it is outside the fragment. *)
Definition scan_int (s : string) : option (Z * string) :=
  match s with
  | String c s' =>
      if is_digit c then
        let '(z, r) :=
          if Ascii.eqb c "0" then (0, s') else scan_digits 0 s in
        match r with
        | String d _ =>
            if Ascii.eqb d "." || Ascii.eqb d "e" || Ascii.eqb d "E"
            then None else Some (z, r)
        | EmptyString => Some (z, r)
        end
      else None
  | EmptyString => None
  end.

Section Items.

Variable parse_value : string -> option (value * string).

(** After an element: either the closing bracket or a comma and the next
    element. *)
Fixpoint parse_elements (n : nat) (acc : list value) (s : string)
  : option (value * string) :=
  match n with
  | O => None
  | S n' =>
      match parse_value s with
      | Some (v, r) =>
          match skip_ws r with
          | String "]" r' => Some (VList (acc ++ [v]), r')
          | String "," r' => parse_elements n' (acc ++ [v]) r'
          | _ => None
          end
      | None => None
      end
  end.

Fixpoint parse_members (n : nat) (acc : list (string * value)) (s : string)
  : option (value * string) :=
  match n with
  | O => None
  | S n' =>
      match skip_ws s with
      | String "034" r =>
          match scan_string r with
          | Some (k, r1) =>
              match skip_ws r1 with
              | String ":" r2 =>
                  match parse_value r2 with
                  | Some (v, r3) =>
                      match skip_ws r3 with
                      | String "}" r4 => Some (VDict (dict_set k v acc), r4)
                      | String "," r4 => parse_members n' (dict_set k v acc) r4
                      | _ => None
                      end
                  | None => None
                  end
              | _ => None
              end
          | None => None
          end
      | _ => None
      end
  end.

End Items.

Fixpoint parse_value (fuel : nat) (s : string) : option (value * string) :=
  match fuel with
  | O => None
  | S fuel' =>
      match skip_ws s with
      | String "n" r => option_map (pair VNone) (expect "ull" r)
      | String "t" r => option_map (pair (VBool true)) (expect "rue" r)
      | String "f" r => option_map (pair (VBool false)) (expect "alse" r)
      | String "034" r =>
          match scan_string r with
          | Some (str, r') => Some (VStr str, r')
          | None => None
          end
      | String "[" r =>
          match skip_ws r with
          | String "]" r' => Some (VList [], r')
          | _ => parse_elements (parse_value fuel') (String.length r) [] r
          end
      | String "{" r =>
          match skip_ws r with
          | String "}" r' => Some (VDict [], r')
          | _ => parse_members (parse_value fuel') (String.length r) [] r
          end
      | String "-" r =>
          match scan_int r with
          | Some (z, r') => Some (VInt (- z), r')
          | None => None
          end
      | r =>
          match scan_int r with
          | Some (z, r') => Some (VInt z, r')
          | None => None
          end
      end
  end.

Definition loads (s : string) : outcome value :=
  match parse_value (S (String.length s)) s with
  | Some (v, r) =>
      match skip_ws r with
      | EmptyString => Return v
      | _ => Raise JSONDecodeError
      end
  | None => Raise JSONDecodeError
  end.

End Codec.


(** ** Vocabulary of the properties *)

(** The fields of a response document. *)
Definition version_of (resp : value) : option value := dig resp ["version"].
Definition should_end (resp : value) : option value :=
  dig resp ["response"; "shouldEndSession"].
Definition speech_text (resp : value) : option value :=
  dig resp ["response"; "outputSpeech"; "text"].
Definition reprompt_text (resp : value) : option value :=
  dig resp ["response"; "reprompt"; "outputSpeech"; "text"].

(** A response document carries the version tag and a [response] object. *)
Definition valid_response (resp : value) : bool :=
  match version_of resp, dig resp ["response"] with
  | Some (VStr v), Some (VDict _) => String.eqb v "1.0"
  | _, _ => false
  end.

(** A speech-shaped document: plain-text output speech and a session flag. *)
Definition speech_shaped (resp : value) : bool :=
  valid_response resp &&
  match dig resp ["response"; "outputSpeech"; "type"], speech_text resp,
        should_end resp with
  | Some (VStr ty), Some (VStr _), Some (VBool _) => String.eqb ty "PlainText"
  | _, _, _ => false
  end.

(** The completion call failed: the client raised, or its answer has no
    choice, or the first choice has no text. *)
Definition completion_failed (o : outcome chat_completion) : bool :=
  match o with
  | Raise _ => true
  | Return r =>
      match choices r with
      | [] => true
      | c :: _ =>
          match content (message c) with
          | None => true
          | Some _ => false
          end
      end
  end.

(** The [query] slot of an intent is missing or holds an empty value: there
    is no [slots] mapping, or no [query] in it, or the slot has no [value],
    or its value is falsy (the empty string among others). *)
Definition query_slot_empty (intent : list (string * value)) : bool :=
  match dict_get "slots" intent with
  | None => true
  | Some (VDict slots) =>
      match dict_get "query" slots with
      | None => true
      | Some (VDict q) =>
          match dict_get "value" q with
          | None => true
          | Some v => negb (truthy v)
          end
      | Some _ => false
      end
  | Some _ => false
  end.

(** The envelope is a stop or cancel intent request. *)
Definition is_stop_or_cancel (alexa_request : value) : bool :=
  match dig alexa_request ["request"; "type"],
        dig alexa_request ["request"; "intent"; "name"] with
  | Some ty, Some name =>
      eq_str ty "IntentRequest" &&
      (eq_str name "AMAZON.CancelIntent" || eq_str name "AMAZON.StopIntent")
  | _, _ => false
  end.

Definition is_session_ended (alexa_request : value) : bool :=
  match dig alexa_request ["request"; "type"] with
  | Some ty => eq_str ty "SessionEndedRequest"
  | None => false
  end.

(** The two shapes of what [handler] returns: a transport rejection, whose
    body is the encoded [{error: msg}], and an answer carrying an encoded
    response document. *)
Definition rejection (dumps : value -> string) (status : Z) (msg : string)
  : value :=
  VDict [("statusCode", VInt status);
         ("body", VStr (dumps (VDict [("error", VStr msg)])))].

Definition ok_answer (dumps : value -> string) (resp : value) : value :=
  VDict [("statusCode", VInt 200);
         ("headers", VDict [("Content-Type", VStr "application/json")]);
         ("body", VStr (dumps resp))].

Definition failure_answer (dumps : value -> string) : value :=
  VDict [("statusCode", VInt 500); ("body", VStr (dumps apology))].

(** A string of [n] copies of [c]. *)
Fixpoint replicate (n : nat) (c : ascii) : string :=
  match n with
  | O => EmptyString
  | S n' => String c (replicate n' c)
  end.

(** ** Sample collaborators and requests *)

Module Samples.

(** A completion service that answers every request with one choice
    carrying [text], one that is down, and one that answers without any
    choice. *)
Definition service_says (text : string) (rq : completion_request)
  : outcome chat_completion :=
  Return {| choices := [ {| message := {| content := Some text |} |} ] |}.

Definition service_down (rq : completion_request) : outcome chat_completion :=
  Raise (ExternalError "Connection error.").

Definition service_empty (rq : completion_request) : outcome chat_completion :=
  Return {| choices := [] |}.

(** More than 8000 characters between two blanks. *)
Definition long_text : string :=
  " " ++ replicate (Z.to_nat 8001) "a" ++ " ".

(** The envelope [{request: {type: LaunchRequest}}]. *)
Definition launch_envelope : value :=
  VDict [("request", VDict [("type", VStr "LaunchRequest")])].

(** An intent request for [name], [more] being the other fields of the
    intent object. *)
Definition intent_envelope (name : string) (more : list (string * value))
  : value :=
  VDict [("request",
          VDict [("type", VStr "IntentRequest");
                 ("intent", VDict (("name", VStr name) :: more))])].

(** A chat intent request without slots and without session, as the items
    of its three dictionaries. *)
Definition bare_chat_intent : list (string * value) :=
  [("name", VStr "ChatIntent")].
Definition bare_chat_request : list (string * value) :=
  [("type", VStr "IntentRequest"); ("intent", VDict bare_chat_intent)].
Definition bare_chat_envelope : list (string * value) :=
  [("request", VDict bare_chat_request)].

(** The text [{"request": {"type": "IntentRequest"}}]: an intent request
    that names no intent. *)
Definition intent_missing_text : string :=
  "{" ++ dq ++ "request" ++ dq ++ ": {" ++ dq ++ "type" ++ dq ++ ": "
  ++ dq ++ "IntentRequest" ++ dq ++ "}}".

Definition post (text : string) : http_request :=
  {| method := "POST"; body := Some text; json := None |}.

(** The texts [{"request":{"type":"LaunchRequest"}}] and
    [{"request":{"type":"IntentRequest","intent":{"name":"AMAZON.StopIntent"}}}]. *)
Definition launch_text : string :=
  "{" ++ dq ++ "request" ++ dq ++ ":{" ++ dq ++ "type" ++ dq ++ ":"
  ++ dq ++ "LaunchRequest" ++ dq ++ "}}".

Definition stop_text : string :=
  "{" ++ dq ++ "request" ++ dq ++ ":{" ++ dq ++ "type" ++ dq ++ ":"
  ++ dq ++ "IntentRequest" ++ dq ++ "," ++ dq ++ "intent" ++ dq ++ ":{"
  ++ dq ++ "name" ++ dq ++ ":" ++ dq ++ "AMAZON.StopIntent" ++ dq ++ "}}}".

(** What the stop intent is answered with, as the encoder prints it. *)
Definition goodbye_text : string :=
  "{" ++ dq ++ "version" ++ dq ++ ": " ++ dq ++ "1.0" ++ dq ++ ", "
  ++ dq ++ "response" ++ dq ++ ": {" ++ dq ++ "outputSpeech" ++ dq ++ ": {"
  ++ dq ++ "type" ++ dq ++ ": " ++ dq ++ "PlainText" ++ dq ++ ", "
  ++ dq ++ "text" ++ dq ++ ": " ++ dq ++ "Goodbye!" ++ dq ++ "}, "
  ++ dq ++ "shouldEndSession" ++ dq ++ ": true}}".

End Samples.

(** The envelope [d], whose request is [rq] and whose intent is [intent],
    after [d['request']['intent']['slots'] = {}]. *)
Definition with_empty_slots (d rq intent : list (string * value)) : value :=
  VDict (dict_set "request"
           (VDict (dict_set "intent"
                     (VDict (dict_set "slots" (VDict []) intent)) rq)) d).

(** The envelope can be routed: its request has a type and, when that is
    [IntentRequest], an intent with a name. *)
Definition routable (alexa_request : value) : bool :=
  match dig alexa_request ["request"; "type"] with
  | Some ty =>
      if eq_str ty "IntentRequest"
      then match dig alexa_request ["request"; "intent"; "name"] with
           | Some _ => true
           | None => false
           end
      else true
  | None => false
  end.

(** ** Further vocabulary *)

(** The envelope is a chat intent request. *)
Definition is_chat_intent (alexa_request : value) : bool :=
  match dig alexa_request ["request"; "type"],
        dig alexa_request ["request"; "intent"; "name"] with
  | Some ty, Some name => eq_str ty "IntentRequest" && eq_str name "ChatIntent"
  | _, _ => false
  end.

Definition is_dict (v : value) : bool :=
  match v with
  | VDict _ => true
  | _ => false
  end.

(** The slot cannot be read: [slots] is there but is no mapping, or its
    [query] is there but is no mapping. *)
Definition query_slot_unreadable (intent : list (string * value)) : bool :=
  match dict_get "slots" intent with
  | None => false
  | Some (VDict slots) =>
      match dict_get "query" slots with
      | None => false
      | Some q => negb (is_dict q)
      end
  | Some _ => true
  end.

(** The user identifier cannot be read: [session] is there but is no
    mapping, or its [user] is there but is no mapping. *)
Definition session_unreadable (d : list (string * value)) : bool :=
  match dict_get "session" d with
  | None => false
  | Some (VDict session) =>
      match dict_get "user" session with
      | None => false
      | Some u => negb (is_dict u)
      end
  | Some _ => true
  end.

(** The invocations of [client.chat.completions.create] in a trace. *)
Definition is_completion (ev : event) : bool :=
  match ev with
  | ChatCompletion _ => true
  | LogError _ _ => false
  end.

Definition completions (t : trace) : nat :=
  List.length (List.filter is_completion t).

(** The text starts, or ends, with a whitespace character. *)
Definition starts_blank (s : string) : bool :=
  match s with
  | String c _ => is_space c
  | EmptyString => false
  end.

Fixpoint ends_blank (s : string) : bool :=
  match s with
  | EmptyString => false
  | String c EmptyString => is_space c
  | String _ s' => ends_blank s'
  end.

(** The text is made of whitespace only. *)
Fixpoint blank (s : string) : bool :=
  match s with
  | EmptyString => true
  | String c s' => is_space c && blank s'
  end.

(** The speech document of a successful chat answer. *)
Definition chat_answer (text : string) : value :=
  VDict [("version", VStr "1.0");
         ("response",
          VDict [("outputSpeech", plain_text (VStr text));
                 ("shouldEndSession", VBool false)])].

(** What the responder makes of a text of the service. *)
Definition shortened (s : string) : string :=
  if len (strip s) >? 8000 then slice_to (strip s) 7900 ++ "..." else strip s.

(** ** Strings *)

Lemma length_app (s1 s2 : string) :
  String.length (s1 ++ s2) = (String.length s1 + String.length s2)%nat.
Proof.
  induction s1 as [|c s1 IH]; simpl; [reflexivity | now rewrite IH].
Qed.

Lemma length_prefix (n : nat) (s : string) :
  String.length (String.substring 0 n s) = Nat.min n (String.length s).
Proof.
  revert n; induction s as [|c s IH]; intros [|n]; simpl; auto.
Qed.

Lemma len_slice_to (s : string) (n : Z) :
  0 <= n -> len (slice_to s n) = Z.min n (len s).
Proof.
  intros Hn. unfold len, slice_to. rewrite length_prefix. lia.
Qed.

Lemma len_app (s1 s2 : string) : len (s1 ++ s2) = len s1 + len s2.
Proof. unfold len. rewrite length_app. lia. Qed.

Lemma len_fallback_text : len fallback_text = 91.
Proof. reflexivity. Qed.

(** ** The AI responder *)

Section Responder.

Variable chat_completions_create : completion_request -> outcome chat_completion.

(** What [generate_ai_response] computes, by cases on the answer of the
    service. *)
Lemma generate_ai_response_cases (user_query user_id : value) (t : trace) :
  let t1 := (t ++ [ChatCompletion (chat_request user_query)])%list in
  match chat_completions_create (chat_request user_query) with
  | Raise e =>
      generate_ai_response chat_completions_create user_query user_id t
      = (Return fallback_text, (t1 ++ [LogError "OpenAI API error: " e])%list)
  | Return r =>
      match choices r with
      | [] =>
          generate_ai_response chat_completions_create user_query user_id t
          = (Return fallback_text,
             (t1 ++ [LogError "OpenAI API error: " IndexError])%list)
      | c :: _ =>
          match content (message c) with
          | None =>
              generate_ai_response chat_completions_create user_query user_id t
              = (Return fallback_text,
                 (t1 ++ [LogError "OpenAI API error: " AttributeError])%list)
          | Some s =>
              generate_ai_response chat_completions_create user_query user_id t
              = (Return (if len (strip s) >? 8000
                         then slice_to (strip s) 7900 ++ "..."
                         else strip s), t1)
          end
      end
  end.
Proof.
  unfold generate_ai_response, create, try_except, bind, emit, lift,
    logger_error, ret, first_choice, content_strip.
  cbv zeta.
  destruct (chat_completions_create (chat_request user_query)) as [r|e];
    [|reflexivity].
  destruct (choices r) as [|c cs]; [reflexivity|].
  destruct (content (message c)) as [s|]; reflexivity.
Qed.

(** The responder always returns a text, and never more than 8000
    characters. *)
Lemma generate_ai_response_total (user_query user_id : value) (t : trace) :
  exists text t',
    generate_ai_response chat_completions_create user_query user_id t = (Return text, t') /\ len text <= 8000.
Proof.
  pose proof (generate_ai_response_cases user_query user_id t) as H.
  cbv zeta in H.
  destruct (chat_completions_create (chat_request user_query)) as [r|e].
  - destruct (choices r) as [|c cs].
    + eexists; eexists; split; [exact H | rewrite len_fallback_text; lia].
    + destruct (content (message c)) as [s|].
      * eexists; eexists; split; [exact H|].
        destruct (len (strip s) >? 8000) eqn:E.
        -- rewrite len_app, len_slice_to by lia.
           change (len "...") with 3. lia.
        -- rewrite Z.gtb_ltb in E. apply Z.ltb_ge in E. lia.
      * eexists; eexists; split; [exact H | rewrite len_fallback_text; lia].
  - eexists; eexists; split; [exact H | rewrite len_fallback_text; lia].
Qed.

End Responder.

(** C5. When the service returns a text, the responder returns at most 8000
    characters: the stripped text itself when that has at most 8000
    characters, and otherwise its first 7900 characters followed by the
    three dots. *)
Theorem generate_ai_response_truncates
  (create_ : completion_request -> outcome chat_completion)
  (user_query user_id : value) (t : trace) (s : string) (rest : list choice) :
  create_ (chat_request user_query)
  = Return {| choices := {| message := {| content := Some s |} |} :: rest |} ->
  exists text,
    generate_ai_response create_ user_query user_id t
    = (Return text, (t ++ [ChatCompletion (chat_request user_query)])%list) /\
    len text <= 8000 /\
    (8000 < len (strip s) -> text = slice_to (strip s) 7900 ++ "...") /\
    (len (strip s) <= 8000 -> text = strip s).
Proof.
  intros Hc.
  pose proof (generate_ai_response_cases create_ user_query user_id t) as H.
  pose proof (generate_ai_response_total create_ user_query user_id t)
    as (text & t' & Ht & Hlen).
  cbv zeta in H. rewrite Hc in H. simpl in H.
  rewrite H in Ht. injection Ht as Ht _. rewrite <- Ht in *.
  eexists; split; [exact H|]. split; [exact Hlen|].
  split; intros Hs.
  - apply Z.gtb_lt in Hs. now rewrite Hs.
  - destruct (len (strip s) >? 8000) eqn:E; [|reflexivity].
    rewrite Z.gtb_ltb in E. apply Z.ltb_lt in E. lia.
Qed.

Lemma generate_ai_response_truncates_witness :
  exists text,
    generate_ai_response (Samples.service_says Samples.long_text)
      (VStr "tell me a story") (VStr "amzn1.ask.account.A1") []
    = (Return text, [ChatCompletion (chat_request (VStr "tell me a story"))]) /\
    len text <= 8000 /\
    (8000 < len (strip Samples.long_text) ->
     text = slice_to (strip Samples.long_text) 7900 ++ "...") /\
    (len (strip Samples.long_text) <= 8000 -> text = strip Samples.long_text).
Proof.
  exact (generate_ai_response_truncates
           (Samples.service_says Samples.long_text)
           (VStr "tell me a story") (VStr "amzn1.ask.account.A1") []
           Samples.long_text [] eq_refl).
Defined.

(** On the sample text of 8003 characters, 8001 once stripped, the responder
    returns 7903 characters. *)
Example generate_ai_response_long_text :
  len (strip Samples.long_text) = 8001 /\
  generate_ai_response (Samples.service_says Samples.long_text)
    (VStr "tell me a story") (VStr "amzn1.ask.account.A1") []
  = (Return (replicate (Z.to_nat 7900) "a" ++ "..."),
     [ChatCompletion (chat_request (VStr "tell me a story"))]).
Proof. split; vm_compute; reflexivity. Qed.

(** C6. When the completion call fails (the client raises, or answers
    without a choice or without a text), the responder logs the error and
    returns the fixed fallback sentence; it does not raise. *)
Theorem generate_ai_response_fallback
  (create_ : completion_request -> outcome chat_completion)
  (user_query user_id : value) (t : trace) :
  completion_failed (create_ (chat_request user_query)) = true ->
  exists e,
    generate_ai_response create_ user_query user_id t
    = (Return
         "I'm having trouble connecting to my knowledge base right now. Please try again in a moment.",
       (t ++ [ChatCompletion (chat_request user_query)]
          ++ [LogError "OpenAI API error: " e])%list).
Proof.
  intros Hf.
  pose proof (generate_ai_response_cases create_ user_query user_id t) as H.
  cbv zeta in H. unfold completion_failed in Hf.
  destruct (create_ (chat_request user_query)) as [r|e].
  - destruct (choices r) as [|c cs].
    + exists IndexError. rewrite <- app_assoc in H. exact H.
    + destruct (content (message c)) as [s|]; [discriminate|].
      exists AttributeError. rewrite <- app_assoc in H. exact H.
  - exists e. rewrite <- app_assoc in H. exact H.
Qed.

Lemma generate_ai_response_fallback_witness :
  exists e,
    generate_ai_response Samples.service_down
      (VStr "what is the weather") (VStr "unknown") []
    = (Return
         "I'm having trouble connecting to my knowledge base right now. Please try again in a moment.",
       ([] ++ [ChatCompletion (chat_request (VStr "what is the weather"))]
          ++ [LogError "OpenAI API error: " e])%list).
Proof.
  exact (generate_ai_response_fallback Samples.service_down
           (VStr "what is the weather") (VStr "unknown") [] eq_refl).
Defined.

(** A service that answers without any choice is a failed call as well. *)
Example generate_ai_response_no_choice :
  generate_ai_response Samples.service_empty (VStr "hello") (VStr "unknown") []
  = (Return fallback_text,
     [ChatCompletion (chat_request (VStr "hello"));
      LogError "OpenAI API error: " IndexError]).
Proof. reflexivity. Qed.

(** ** Dictionaries and paths *)

Lemma dict_get_set_same (k : string) (v : value) (d : list (string * value)) :
  dict_get k (dict_set k v d) = Some v.
Proof.
  induction d as [|[k' v'] d IH]; simpl.
  - now rewrite String.eqb_refl.
  - destruct (String.eqb k k') eqn:E; simpl.
    + now rewrite String.eqb_refl.
    + now rewrite E.
Qed.

Lemma dict_get_set_other (k k' : string) (v : value) (d : list (string * value)) :
  k <> k' -> dict_get k' (dict_set k v d) = dict_get k' d.
Proof.
  intros Hk. induction d as [|[k0 v0] d IH]; simpl.
  - destruct (String.eqb k' k) eqn:E; [|reflexivity].
    apply String.eqb_eq in E. congruence.
  - destruct (String.eqb k k0) eqn:E; simpl.
    + apply String.eqb_eq in E. subst k0.
      destruct (String.eqb k' k) eqn:E'; [|reflexivity].
      apply String.eqb_eq in E'. congruence.
    + now rewrite IH.
Qed.

Lemma subscript_dict (k : string) (d : list (string * value)) (x : value) :
  dict_get k d = Some x -> subscript (VDict d) k = Return x.
Proof. intros H. unfold subscript. now rewrite H. Qed.

Lemma subscript_inv (v : value) (k : string) (x : value) :
  subscript v k = Return x -> exists d, v = VDict d /\ dict_get k d = Some x.
Proof.
  destruct v; simpl; try discriminate.
  destruct (dict_get k d) eqn:E; [|discriminate].
  intros [= <-]. eauto.
Qed.

Lemma dig_step (v : value) (k : string) (path : list string) (x : value) :
  dig v (k :: path) = Some x ->
  exists y, subscript v k = Return y /\ dig y path = Some x.
Proof.
  destruct v; simpl; try discriminate.
  destruct (dict_get k d) as [y|]; [|discriminate]. eauto.
Qed.

Lemma dig_subscript (v : value) (k : string) (path : list string) (y : value) :
  subscript v k = Return y -> dig v (k :: path) = dig y path.
Proof.
  intros H. apply subscript_inv in H as (d & -> & H). simpl. now rewrite H.
Qed.

Lemma eq_str_true (v : value) (lit : string) :
  eq_str v lit = true -> v = VStr lit.
Proof.
  destruct v; simpl; try discriminate.
  intros H. apply String.eqb_eq in H. now subst.
Qed.

(** ** The chat intent *)

(** Reading the slot and the user identifier leaves the trace alone. *)
Lemma chat_user_query_pure (alexa_request : value) (t : trace) :
  chat_user_query alexa_request t = (fst (chat_user_query alexa_request []), t).
Proof.
  unfold chat_user_query, bind, lift.
  repeat match goal with
         | |- context [match ?o with Return _ => _ | Raise _ => _ end] =>
             destruct o; simpl
         end; reflexivity.
Qed.

Lemma chat_user_id_pure (alexa_request : value) (t : trace) :
  chat_user_id alexa_request t = (fst (chat_user_id alexa_request []), t).
Proof.
  unfold chat_user_id, bind, lift.
  repeat match goal with
         | |- context [match ?o with Return _ => _ | Raise _ => _ end] =>
             destruct o; simpl
         end; reflexivity.
Qed.

Section Router.

Variable chat_completions_create : completion_request -> outcome chat_completion.

(** [handle_chat_intent] by cases on the slot and the user identifier. *)
Lemma handle_chat_intent_cases (alexa_request : value) (t : trace) :
  handle_chat_intent chat_completions_create alexa_request t =
  match fst (chat_user_query alexa_request []) with
  | Raise e =>
      (Return (create_error_response
                 "Sorry, I had trouble processing your request."),
       (t ++ [LogError "Error in chat intent: " e])%list)
  | Return user_query =>
      if truthy user_query then
        match fst (chat_user_id alexa_request []) with
        | Raise e =>
            (Return (create_error_response
                       "Sorry, I had trouble processing your request."),
             (t ++ [LogError "Error in chat intent: " e])%list)
        | Return user_id =>
            match generate_ai_response chat_completions_create
                    user_query user_id t with
            | (Return ai_response, t') =>
                (Return
                   (VDict [("version", VStr "1.0");
                           ("response",
                            VDict [("outputSpeech",
                                    plain_text (VStr ai_response));
                                   ("shouldEndSession", VBool false)])]), t')
            | (Raise e, t') =>
                (Return (create_error_response
                           "Sorry, I had trouble processing your request."),
                 (t' ++ [LogError "Error in chat intent: " e])%list)
            end
        end
      else
        (Return (create_error_response
                   "I didn't catch what you said. Could you repeat that?"), t)
  end.
Proof.
  unfold handle_chat_intent, try_except, bind.
  rewrite chat_user_query_pure.
  destruct (fst (chat_user_query alexa_request [])) as [q|e]; [|reflexivity].
  destruct (truthy q); simpl; [|reflexivity].
  rewrite chat_user_id_pure.
  destruct (fst (chat_user_id alexa_request [])) as [u|e]; [|reflexivity].
  destruct (generate_ai_response chat_completions_create q u t) as [[a|e] t'];
    reflexivity.
Qed.

(** The chat intent always answers with a speech response that keeps the
    session open; it never raises. *)
Lemma handle_chat_intent_total (alexa_request : value) (t : trace) :
  exists resp t',
    handle_chat_intent chat_completions_create alexa_request t
    = (Return resp, t') /\
    speech_shaped resp = true /\ should_end resp = Some (VBool false).
Proof.
  rewrite handle_chat_intent_cases.
  destruct (fst (chat_user_query alexa_request [])) as [q|e];
    [|eexists; eexists; split; [reflexivity | split; reflexivity]].
  destruct (truthy q);
    [|eexists; eexists; split; [reflexivity | split; reflexivity]].
  destruct (fst (chat_user_id alexa_request [])) as [u|e];
    [|eexists; eexists; split; [reflexivity | split; reflexivity]].
  destruct (generate_ai_response_total chat_completions_create q u t)
    as (text & t' & -> & _).
  eexists; eexists; split; [reflexivity | split; reflexivity].
Qed.

(** Two envelopes with the same slot value and the same user identifier get
    the same answer. *)
Lemma handle_chat_intent_ext (r1 r2 : value) (t : trace) :
  fst (chat_user_query r1 []) = fst (chat_user_query r2 []) ->
  fst (chat_user_id r1 []) = fst (chat_user_id r2 []) ->
  handle_chat_intent chat_completions_create r1 t
  = handle_chat_intent chat_completions_create r2 t.
Proof.
  intros Hq Hu. rewrite !handle_chat_intent_cases, Hq, Hu. reflexivity.
Qed.

(** ** The router *)

Lemma process_alexa_request_cases (alexa_request rq ty : value) (t : trace) :
  subscript alexa_request "request" = Return rq ->
  subscript rq "type" = Return ty ->
  process_alexa_request chat_completions_create alexa_request t =
  if eq_str ty "LaunchRequest" then (Return handle_launch_request, t)
  else if eq_str ty "IntentRequest"
       then handle_intent_request chat_completions_create alexa_request t
  else if eq_str ty "SessionEndedRequest"
       then (Return handle_session_ended_request, t)
  else (Return (create_error_response "Unknown request type"), t).
Proof.
  intros H1 H2. unfold process_alexa_request, bind, lift, ret.
  rewrite H1, H2.
  repeat match goal with |- context [eq_str ?v ?l] => destruct (eq_str v l) end;
    reflexivity.
Qed.

Lemma handle_intent_request_cases
  (alexa_request rq intent name : value) (t : trace) :
  subscript alexa_request "request" = Return rq ->
  subscript rq "intent" = Return intent ->
  subscript intent "name" = Return name ->
  handle_intent_request chat_completions_create alexa_request t =
  if eq_str name "ChatIntent"
  then handle_chat_intent chat_completions_create alexa_request t
  else if eq_str name "AMAZON.HelpIntent" then (Return handle_help_intent, t)
  else if eq_str name "AMAZON.CancelIntent" || eq_str name "AMAZON.StopIntent"
       then (Return handle_stop_intent, t)
  else (Return (create_error_response "I didn't understand that request."), t).
Proof.
  intros H1 H2 H3. unfold handle_intent_request, bind, lift, ret.
  rewrite H1, H2, H3.
  repeat match goal with |- context [eq_str ?v ?l] => destruct (eq_str v l) end;
    reflexivity.
Qed.

(** The router raises exactly what the lookups raise: when it returns, the
    envelope had a request with a type. *)
Lemma process_alexa_request_returns_inv
  (alexa_request resp : value) (t t' : trace) :
  process_alexa_request chat_completions_create alexa_request t
  = (Return resp, t') ->
  exists rq ty,
    subscript alexa_request "request" = Return rq /\
    subscript rq "type" = Return ty.
Proof.
  unfold process_alexa_request, bind, lift.
  destruct (subscript alexa_request "request") as [rq|e]; [|discriminate].
  destruct (subscript rq "type") as [ty|e] eqn:E; [|discriminate].
  intros _. exists rq, ty. split; [reflexivity | exact E].
Qed.

Lemma handle_intent_request_returns_inv
  (alexa_request rq resp : value) (t t' : trace) :
  subscript alexa_request "request" = Return rq ->
  handle_intent_request chat_completions_create alexa_request t
  = (Return resp, t') ->
  exists intent name,
    subscript rq "intent" = Return intent /\
    subscript intent "name" = Return name.
Proof.
  intros H1. unfold handle_intent_request, bind, lift. rewrite H1.
  destruct (subscript rq "intent") as [intent|e] eqn:E1; [|discriminate].
  destruct (subscript intent "name") as [name|e] eqn:E2; [|discriminate].
  intros _. exists intent, name. split; [reflexivity | exact E2].
Qed.

End Router.

(** C8. A launch request is answered with the greeting, a reprompt that is
    not empty, and the session left open. *)
Theorem launch_request_response
  (create_ : completion_request -> outcome chat_completion)
  (alexa_request : value) (t : trace) :
  dig alexa_request ["request"; "type"] = Some (VStr "LaunchRequest") ->
  exists resp reprompt,
    process_alexa_request create_ alexa_request t = (Return resp, t) /\
    should_end resp = Some (VBool false) /\
    reprompt_text resp = Some (VStr reprompt) /\ reprompt <> "" /\
    speech_text resp
    = Some (VStr "Hello! I'm your AI assistant. How can I help you today?").
Proof.
  intros H.
  apply dig_step in H as (rq & H1 & H).
  apply dig_step in H as (ty & H2 & [= ->]).
  exists handle_launch_request, "What would you like me to help you with?".
  rewrite (process_alexa_request_cases create_ _ _ _ t H1 H2).
  repeat split; discriminate.
Qed.

Lemma launch_request_response_witness :
  exists resp reprompt,
    process_alexa_request Samples.service_down Samples.launch_envelope []
    = (Return resp, []) /\
    should_end resp = Some (VBool false) /\
    reprompt_text resp = Some (VStr reprompt) /\ reprompt <> "" /\
    speech_text resp
    = Some (VStr "Hello! I'm your AI assistant. How can I help you today?").
Proof.
  exact (launch_request_response Samples.service_down
           Samples.launch_envelope [] eq_refl).
Defined.

(** C9. A stop intent and a cancel intent are both answered with the
    goodbye document, whose [shouldEndSession] is true. *)
Theorem stop_cancel_response
  (create_ : completion_request -> outcome chat_completion)
  (alexa_request : value) (name : string) (t : trace) :
  dig alexa_request ["request"; "type"] = Some (VStr "IntentRequest") ->
  dig alexa_request ["request"; "intent"; "name"] = Some (VStr name) ->
  name = "AMAZON.StopIntent" \/ name = "AMAZON.CancelIntent" ->
  exists resp,
    process_alexa_request create_ alexa_request t = (Return resp, t) /\
    should_end resp = Some (VBool true) /\
    resp = VDict [("version", VStr "1.0");
                  ("response",
                   VDict [("outputSpeech",
                           VDict [("type", VStr "PlainText");
                                  ("text", VStr "Goodbye!")]);
                          ("shouldEndSession", VBool true)])].
Proof.
  intros Hty Hname Hn.
  apply dig_step in Hty as (rq & H1 & Hty).
  apply dig_step in Hty as (ty & H2 & [= ->]).
  apply dig_step in Hname as (rq' & H1' & Hname).
  rewrite H1 in H1'. injection H1' as <-.
  apply dig_step in Hname as (intent & H3 & Hname).
  apply dig_step in Hname as (nm & H4 & [= ->]).
  exists handle_stop_intent.
  rewrite (process_alexa_request_cases create_ _ _ _ t H1 H2).
  rewrite (handle_intent_request_cases create_ _ _ _ _ t H1 H3 H4).
  destruct Hn as [-> | ->]; repeat split.
Qed.

Lemma stop_cancel_response_witness :
  exists resp,
    process_alexa_request Samples.service_down
      (Samples.intent_envelope "AMAZON.StopIntent" []) []
    = (Return resp, []) /\
    should_end resp = Some (VBool true) /\
    resp = VDict [("version", VStr "1.0");
                  ("response",
                   VDict [("outputSpeech",
                           VDict [("type", VStr "PlainText");
                                  ("text", VStr "Goodbye!")]);
                          ("shouldEndSession", VBool true)])].
Proof.
  exact (stop_cancel_response Samples.service_down
           (Samples.intent_envelope "AMAZON.StopIntent" [])
           "AMAZON.StopIntent" [] eq_refl eq_refl (or_introl eq_refl)).
Defined.

(** C10. Every response the router returns carries version 1.0.  Its
    [shouldEndSession] is true for a stop or cancel intent request; for any
    other request it is false, or the request is a session-ended one and the
    response object is empty, without the flag. *)
Theorem router_response_invariant
  (create_ : completion_request -> outcome chat_completion)
  (alexa_request resp : value) (t t' : trace) :
  process_alexa_request create_ alexa_request t = (Return resp, t') ->
  version_of resp = Some (VStr "1.0") /\
  if is_stop_or_cancel alexa_request
  then should_end resp = Some (VBool true)
  else should_end resp = Some (VBool false) \/
       (is_session_ended alexa_request = true /\
        dig resp ["response"] = Some (VDict []) /\ should_end resp = None).
Proof.
  intros H.
  destruct (process_alexa_request_returns_inv create_ _ _ _ _ H)
    as (rq & ty & H1 & H2).
  rewrite (process_alexa_request_cases create_ _ _ _ t H1 H2) in H.
  assert (Hty : dig alexa_request ["request"; "type"] = Some ty).
  { rewrite (dig_subscript _ _ _ _ H1), (dig_subscript _ _ _ _ H2).
    reflexivity. }
  unfold is_stop_or_cancel, is_session_ended. rewrite Hty.
  destruct (eq_str ty "LaunchRequest") eqn:E1.
  { apply eq_str_true in E1. subst ty. injection H as <- _.
    split; [reflexivity|].
    destruct (dig alexa_request ["request"; "intent"; "name"]);
      left; reflexivity. }
  destruct (eq_str ty "IntentRequest") eqn:E2.
  - destruct (handle_intent_request_returns_inv create_ _ _ _ _ _ H1 H)
      as (intent & name & H3 & H4).
    rewrite (handle_intent_request_cases create_ _ _ _ _ t H1 H3 H4) in H.
    assert (Hname : dig alexa_request ["request"; "intent"; "name"] = Some name).
    { rewrite (dig_subscript _ _ _ _ H1), (dig_subscript _ _ _ _ H3),
        (dig_subscript _ _ _ _ H4). reflexivity. }
    rewrite Hname. simpl andb.
    destruct (eq_str name "ChatIntent") eqn:N1.
    { apply eq_str_true in N1. subst name.
      destruct (handle_chat_intent_total create_ alexa_request t)
        as (r & t1 & Hr & Hs & He).
      rewrite Hr in H. injection H as <- _.
      split; [|left; exact He].
      unfold speech_shaped in Hs. apply andb_prop in Hs as [Hv _].
      unfold valid_response in Hv.
      destruct (version_of r) as [[| | | |v| |]|]; try discriminate.
      destruct (dig r ["response"]) as [[]|]; try discriminate.
      apply String.eqb_eq in Hv. now subst. }
    destruct (eq_str name "AMAZON.HelpIntent") eqn:N2.
    { apply eq_str_true in N2. subst name. injection H as <- _.
      split; [reflexivity | left; reflexivity]. }
    destruct (eq_str name "AMAZON.CancelIntent" || eq_str name "AMAZON.StopIntent");
      injection H as <- _; split; try reflexivity. left; reflexivity.
  - simpl andb.
    destruct (eq_str ty "SessionEndedRequest") eqn:E3; injection H as <- _;
      (split; [reflexivity|]);
      destruct (dig alexa_request ["request"; "intent"; "name"]).
    + right; repeat split.
    + right; repeat split.
    + left; reflexivity.
    + left; reflexivity.
Qed.

Lemma router_response_invariant_witness :
  version_of handle_help_intent = Some (VStr "1.0") /\
  if is_stop_or_cancel (Samples.intent_envelope "AMAZON.HelpIntent" [])
  then should_end handle_help_intent = Some (VBool true)
  else should_end handle_help_intent = Some (VBool false) \/
       (is_session_ended (Samples.intent_envelope "AMAZON.HelpIntent" []) = true /\
        dig handle_help_intent ["response"] = Some (VDict []) /\
        should_end handle_help_intent = None).
Proof.
  exact (router_response_invariant Samples.service_down
           (Samples.intent_envelope "AMAZON.HelpIntent" [])
           handle_help_intent [] [] eq_refl).
Defined.

(** ** Missing and empty fields of a chat intent *)

Lemma chat_user_query_empty (alexa_request rq : value)
  (intent : list (string * value)) :
  subscript alexa_request "request" = Return rq ->
  subscript rq "intent" = Return (VDict intent) ->
  query_slot_empty intent = true ->
  exists v, fst (chat_user_query alexa_request []) = Return v /\ truthy v = false.
Proof.
  intros H1 H2 Hq. unfold chat_user_query, bind, lift. rewrite H1, H2.
  unfold query_slot_empty in Hq. unfold get at 1.
  destruct (dict_get "slots" intent) as [slots|]; simpl.
  - destruct slots as [| | | | | |slots]; try discriminate. simpl.
    destruct (dict_get "query" slots) as [q|]; simpl.
    + destruct q as [| | | | | |q]; try discriminate. simpl.
      destruct (dict_get "value" q) as [v|]; simpl.
      * exists v. split; [reflexivity|]. now apply negb_true_iff in Hq.
      * exists (VStr ""). split; reflexivity.
    + exists (VStr ""). split; reflexivity.
  - exists (VStr ""). split; reflexivity.
Qed.

(** C7. A chat intent whose [query] slot is missing or empty is answered
    with the request to repeat, the session stays open, and nothing is added
    to the trace: the completion service is not called, whatever it is. *)
Theorem chat_intent_empty_slot
  (create_ : completion_request -> outcome chat_completion)
  (alexa_request : value) (intent : list (string * value)) (t : trace) :
  dig alexa_request ["request"; "type"] = Some (VStr "IntentRequest") ->
  dig alexa_request ["request"; "intent"] = Some (VDict intent) ->
  dict_get "name" intent = Some (VStr "ChatIntent") ->
  query_slot_empty intent = true ->
  let resp :=
    create_error_response "I didn't catch what you said. Could you repeat that?" in
  process_alexa_request create_ alexa_request t = (Return resp, t) /\
  speech_text resp
  = Some (VStr "I didn't catch what you said. Could you repeat that?") /\
  should_end resp = Some (VBool false).
Proof.
  intros Hty Hin Hname Hq.
  apply dig_step in Hty as (rq & H1 & Hty).
  apply dig_step in Hty as (ty & H2 & [= ->]).
  apply dig_step in Hin as (rq' & H1' & Hin).
  rewrite H1 in H1'. injection H1' as <-.
  apply dig_step in Hin as (i & H3 & [= ->]).
  destruct (chat_user_query_empty _ _ _ H1 H3 Hq) as (v & Hv & Hf).
  rewrite (process_alexa_request_cases create_ _ _ _ t H1 H2).
  rewrite (handle_intent_request_cases create_ _ _ _ _ t H1 H3
             (subscript_dict _ _ _ Hname)).
  simpl. rewrite handle_chat_intent_cases, Hv, Hf.
  repeat split.
Qed.

Lemma chat_intent_empty_slot_witness :
  let resp :=
    create_error_response "I didn't catch what you said. Could you repeat that?" in
  process_alexa_request (Samples.service_says "never asked")
    (Samples.intent_envelope "ChatIntent"
       [("slots", VDict [("query", VDict [("value", VStr "")])])]) []
  = (Return resp, []) /\
  speech_text resp
  = Some (VStr "I didn't catch what you said. Could you repeat that?") /\
  should_end resp = Some (VBool false).
Proof.
  exact (chat_intent_empty_slot (Samples.service_says "never asked")
           (Samples.intent_envelope "ChatIntent"
              [("slots", VDict [("query", VDict [("value", VStr "")])])])
           _ [] eq_refl eq_refl eq_refl eq_refl).
Defined.

(** The envelope [d] with [request.intent.slots] set to the empty
    mapping. *)
Lemma chat_user_query_explicit_slots
  (d rq intent : list (string * value)) :
  dict_get "request" d = Some (VDict rq) ->
  dict_get "intent" rq = Some (VDict intent) ->
  dict_get "slots" intent = None ->
  fst (chat_user_query (VDict d) []) = Return (VStr "") /\
  fst (chat_user_query (with_empty_slots d rq intent) [])
  = Return (VStr "").
Proof.
  intros H1 H2 H3. unfold with_empty_slots, chat_user_query, bind, lift.
  cbn [subscript]. rewrite H1, !dict_get_set_same. cbn [subscript fst].
  rewrite H2, !dict_get_set_same. cbn [get]. rewrite H3, dict_get_set_same.
  split; reflexivity.
Qed.

(** C3. For a chat intent, fields that are missing are read as empty ones.
    Without a [slots] mapping the slot value is the empty string; without a
    [session], without a [user] in it, or without a [userId] in that, the
    user identifier is [unknown]; and in each case the answer and the trace
    are those of the envelope that spells the empty field out.  The answer is
    a speech response in every case. *)
Theorem chat_intent_missing_fields
  (create_ : completion_request -> outcome chat_completion)
  (d rq intent : list (string * value)) (t : trace) :
  dict_get "request" d = Some (VDict rq) ->
  dict_get "intent" rq = Some (VDict intent) ->
  (exists resp t',
     handle_chat_intent create_ (VDict d) t = (Return resp, t') /\
     speech_shaped resp = true) /\
  (dict_get "slots" intent = None ->
   chat_user_query (VDict d) t = (Return (VStr ""), t) /\
   handle_chat_intent create_ (VDict d) t
   = handle_chat_intent create_ (with_empty_slots d rq intent) t) /\
  (dict_get "session" d = None ->
   chat_user_id (VDict d) t = (Return (VStr "unknown"), t) /\
   handle_chat_intent create_ (VDict d) t
   = handle_chat_intent create_ (VDict (dict_set "session" (VDict []) d)) t) /\
  (forall s,
     dict_get "session" d = Some (VDict s) -> dict_get "user" s = None ->
     chat_user_id (VDict d) t = (Return (VStr "unknown"), t) /\
     handle_chat_intent create_ (VDict d) t
     = handle_chat_intent create_
         (VDict (dict_set "session" (VDict (dict_set "user" (VDict []) s)) d)) t) /\
  (forall s u,
     dict_get "session" d = Some (VDict s) ->
     dict_get "user" s = Some (VDict u) -> dict_get "userId" u = None ->
     chat_user_id (VDict d) t = (Return (VStr "unknown"), t) /\
     handle_chat_intent create_ (VDict d) t
     = handle_chat_intent create_
         (VDict (dict_set "session"
                   (VDict (dict_set "user"
                             (VDict (dict_set "userId" (VStr "unknown") u)) s))
                   d)) t).
Proof.
  intros H1 H2.
  assert (Hne : "session" <> "request") by discriminate.
  split; [|split; [|split; [|split]]].
  - destruct (handle_chat_intent_total create_ (VDict d) t)
      as (resp & t' & Hr & Hs & _). eauto.
  - intros H3.
    destruct (chat_user_query_explicit_slots d rq intent H1 H2 H3) as [Ha Hb].
    split; [rewrite chat_user_query_pure, Ha; reflexivity|].
    apply handle_chat_intent_ext; [congruence|].
    unfold with_empty_slots, chat_user_id, bind, lift. cbn [get].
    rewrite dict_get_set_other by discriminate. reflexivity.
  - intros H3.
    assert (Hu : fst (chat_user_id (VDict d) []) = Return (VStr "unknown")).
    { unfold chat_user_id, bind, lift. cbn [get]. rewrite H3. reflexivity. }
    split; [rewrite chat_user_id_pure, Hu; reflexivity|].
    apply handle_chat_intent_ext.
    + unfold chat_user_query, bind, lift. cbn [subscript].
      rewrite dict_get_set_other by exact Hne. reflexivity.
    + rewrite Hu. unfold chat_user_id, bind, lift. cbn [get].
      rewrite dict_get_set_same. reflexivity.
  - intros s H3 H4.
    assert (Hu : fst (chat_user_id (VDict d) []) = Return (VStr "unknown")).
    { unfold chat_user_id, bind, lift. cbn [get]. rewrite H3. cbn [get fst].
      rewrite H4. reflexivity. }
    split; [rewrite chat_user_id_pure, Hu; reflexivity|].
    apply handle_chat_intent_ext.
    + unfold chat_user_query, bind, lift. cbn [subscript].
      rewrite dict_get_set_other by exact Hne. reflexivity.
    + rewrite Hu. unfold chat_user_id, bind, lift. cbn [get].
      rewrite dict_get_set_same. cbn [get fst].
      rewrite dict_get_set_same. reflexivity.
  - intros s u H3 H4 H5.
    assert (Hu : fst (chat_user_id (VDict d) []) = Return (VStr "unknown")).
    { unfold chat_user_id, bind, lift. cbn [get]. rewrite H3. cbn [get fst].
      rewrite H4. cbn [get fst]. rewrite H5. reflexivity. }
    split; [rewrite chat_user_id_pure, Hu; reflexivity|].
    apply handle_chat_intent_ext.
    + unfold chat_user_query, bind, lift. cbn [subscript].
      rewrite dict_get_set_other by exact Hne. reflexivity.
    + rewrite Hu. unfold chat_user_id, bind, lift. cbn [get].
      rewrite dict_get_set_same. cbn [get fst].
      rewrite dict_get_set_same. cbn [get fst].
      rewrite dict_get_set_same. reflexivity.
Qed.

Lemma chat_intent_missing_fields_witness :
  chat_user_query (VDict Samples.bare_chat_envelope) []
  = (Return (VStr ""), []) /\
  handle_chat_intent (Samples.service_says "hello") (VDict Samples.bare_chat_envelope) []
  = handle_chat_intent (Samples.service_says "hello")
      (with_empty_slots Samples.bare_chat_envelope
         Samples.bare_chat_request Samples.bare_chat_intent) [] /\
  chat_user_id (VDict Samples.bare_chat_envelope) []
  = (Return (VStr "unknown"), []).
Proof.
  destruct (chat_intent_missing_fields (Samples.service_says "hello")
              Samples.bare_chat_envelope Samples.bare_chat_request
              Samples.bare_chat_intent [] eq_refl eq_refl)
    as (_ & Hslots & Hsession & _).
  destruct (Hslots eq_refl) as [Hq Hsame].
  destruct (Hsession eq_refl) as [Hid _].
  repeat split; assumption.
Defined.

(** ** When the router raises *)

(** Closes a goal that asks for the response of a branch that returns a
    constant document. *)
Ltac answered :=
  eexists; eexists; split; [reflexivity|];
  split; [reflexivity|]; first [left; reflexivity | right; reflexivity].



Lemma dig_raise (v : value) (k : string) (path : list string) (e : exn) :
  subscript v k = Raise e -> dig v (k :: path) = None.
Proof.
  destruct v; simpl; try reflexivity.
  destruct (dict_get k d); [discriminate | reflexivity].
Qed.

(** The router returns on the routable envelopes and raises on the others. *)
Lemma process_alexa_request_routable
  (create_ : completion_request -> outcome chat_completion)
  (alexa_request : value) (t : trace) :
  if routable alexa_request
  then exists resp t',
         process_alexa_request create_ alexa_request t = (Return resp, t') /\
         valid_response resp = true /\
         (speech_shaped resp = true \/ resp = handle_session_ended_request)
  else exists e,
         process_alexa_request create_ alexa_request t = (Raise e, t).
Proof.
  unfold routable.
  destruct (subscript alexa_request "request") as [rq|e] eqn:H1.
  2:{ rewrite (dig_raise _ _ _ _ H1).
      exists e. unfold process_alexa_request, bind, lift. now rewrite H1. }
  rewrite (dig_subscript _ _ ["type"] _ H1).
  rewrite (dig_subscript _ _ ["intent"; "name"] _ H1).
  destruct (subscript rq "type") as [ty|e] eqn:H2.
  2:{ rewrite (dig_raise _ _ _ _ H2).
      exists e. unfold process_alexa_request, bind, lift. now rewrite H1, H2. }
  rewrite (dig_subscript _ _ [] _ H2). change (dig ty []) with (Some ty).
  rewrite (process_alexa_request_cases create_ _ _ _ t H1 H2).
  destruct (eq_str ty "LaunchRequest") eqn:E1.
  { apply eq_str_true in E1. subst ty. cbn [eq_str String.eqb Ascii.eqb Bool.eqb].
    answered. }
  destruct (eq_str ty "IntentRequest") eqn:E2.
  2:{ destruct (eq_str ty "SessionEndedRequest"); answered. }
  destruct (subscript rq "intent") as [intent|e] eqn:H3.
  2:{ rewrite (dig_raise _ _ _ _ H3).
      exists e. unfold handle_intent_request, bind, lift. now rewrite H1, H3. }
  rewrite (dig_subscript _ _ ["name"] _ H3).
  destruct (subscript intent "name") as [name|e] eqn:H4.
  2:{ rewrite (dig_raise _ _ _ _ H4).
      exists e. unfold handle_intent_request, bind, lift.
      now rewrite H1, H3, H4. }
  rewrite (dig_subscript _ _ [] _ H4). change (dig name []) with (Some name).
  rewrite (handle_intent_request_cases create_ _ _ _ _ t H1 H3 H4).
  destruct (eq_str name "ChatIntent").
  { destruct (handle_chat_intent_total create_ alexa_request t)
      as (r & t1 & Hr & Hs & _).
    exists r, t1. split; [exact Hr|]. split; [|left; exact Hs].
    unfold speech_shaped in Hs. now apply andb_prop in Hs. }
  destruct (eq_str name "AMAZON.HelpIntent"); [answered|].
  destruct (eq_str name "AMAZON.CancelIntent" || eq_str name "AMAZON.StopIntent");
    answered.
Qed.

(** C2, as the code has it.  The router returns one valid response document
    for every envelope whose request has a type and, for an intent request,
    an intent with a name; an unknown type or intent name gets a degraded
    response.  For every other envelope it raises, with the trace
    unchanged, and leaves the failure to its caller. *)
Theorem router_total_on_routable
  (create_ : completion_request -> outcome chat_completion)
  (alexa_request : value) (t : trace) :
  (routable alexa_request = true ->
   exists resp t',
     process_alexa_request create_ alexa_request t = (Return resp, t') /\
     valid_response resp = true) /\
  (routable alexa_request = false ->
   exists e, process_alexa_request create_ alexa_request t = (Raise e, t)).
Proof.
  pose proof (process_alexa_request_routable create_ alexa_request t) as H.
  destruct (routable alexa_request); split; intros Hr; try discriminate.
  - destruct H as (resp & t' & Hp & Hv & _). exists resp, t'. now split.
  - exact H.
Qed.

Lemma router_total_on_routable_witness :
  (exists resp t',
     process_alexa_request Samples.service_down
       (Samples.intent_envelope "PlayMusicIntent" []) []
     = (Return resp, t') /\
     valid_response resp = true) /\
  (exists e,
     process_alexa_request Samples.service_down
       (VDict [("request", VDict [("type", VStr "IntentRequest")])]) []
     = (Raise e, [])).
Proof.
  split.
  - exact (proj1 (router_total_on_routable Samples.service_down
                    (Samples.intent_envelope "PlayMusicIntent" []) [])
             eq_refl).
  - exact (proj2 (router_total_on_routable Samples.service_down
                    (VDict [("request", VDict [("type", VStr "IntentRequest")])])
                    [])
             eq_refl).
Defined.

(** C2 as stated fails: an intent request without an [intent] object is an
    envelope with a [request] field, and the router raises [KeyError] on
    it. *)
Lemma router_raises_counterexample :
  Codec.loads Samples.intent_missing_text
  = Return (VDict [("request", VDict [("type", VStr "IntentRequest")])]) /\
  process_alexa_request Samples.service_down
    (VDict [("request", VDict [("type", VStr "IntentRequest")])]) []
  = (Raise (KeyError "intent"), []).
Proof. split; vm_compute; reflexivity. Qed.

(** ** The HTTP handler *)

Section Handler.

Variable json_loads : string -> outcome value.
Variable json_dumps : value -> string.
Variable chat_completions_create : completion_request -> outcome chat_completion.

Lemma request_document_pure (request : http_request) (t : trace) :
  request_document json_loads request t
  = (fst (request_document json_loads request []), t).
Proof.
  unfold request_document, lift, ret, raise.
  destruct (body request); [reflexivity|].
  destruct (json request); reflexivity.
Qed.

(** The [try] block of [handler], step by step. *)
Lemma handler_try_cases (request : http_request) (t : trace) :
  handler_try json_loads json_dumps chat_completions_create request t =
  if negb (String.eqb (method request) "POST")
  then (Return (rejection json_dumps 405 "Method not allowed"), t)
  else
    match fst (request_document json_loads request []) with
    | Raise e => (Raise e, t)
    | Return alexa_request =>
        match get alexa_request "request" VNone with
        | Raise e => (Raise e, t)
        | Return r =>
            if truthy r then
              match process_alexa_request chat_completions_create
                      alexa_request t with
              | (Return resp, t') => (Return (ok_answer json_dumps resp), t')
              | (Raise e, t') => (Raise e, t')
              end
            else (Return (rejection json_dumps 400 "Invalid Alexa request"), t)
        end
    end.
Proof.
  unfold handler_try, bind.
  destruct (negb (String.eqb (method request) "POST")); [reflexivity|].
  rewrite request_document_pure.
  destruct (fst (request_document json_loads request [])) as [doc|e];
    [|reflexivity].
  unfold lift at 1.
  destruct (get doc "request" VNone) as [r|e]; [|reflexivity].
  destruct (truthy r); simpl; [|reflexivity].
  destruct (process_alexa_request chat_completions_create doc t) as [[resp|e] t'];
    reflexivity.
Qed.

(** [handler] returns an answer for every request: the [except] branch
    turns whatever the [try] block raises into the 500 answer. *)
Lemma handler_except (request : http_request) (t t1 : trace) (e : exn) :
  handler_try json_loads json_dumps chat_completions_create request t
  = (Raise e, t1) ->
  handler json_loads json_dumps chat_completions_create request t
  = (Return (failure_answer json_dumps),
     (t1 ++ [LogError "Error processing request: " e])%list).
Proof.
  intros H. unfold handler, try_except. rewrite H. reflexivity.
Qed.

Lemma handler_no_except (request : http_request) (t t1 : trace) (ans : value) :
  handler_try json_loads json_dumps chat_completions_create request t
  = (Return ans, t1) ->
  handler json_loads json_dumps chat_completions_create request t
  = (Return ans, t1).
Proof.
  intros H. unfold handler, try_except. rewrite H. reflexivity.
Qed.

End Handler.

(** C1, as the code has it.  When processing raises, the handler logs the
    exception and answers with status 500, not 200; the body is the encoded
    apology, a speech-shaped document whose [shouldEndSession] is true, and
    it is the same for every exception: the text of the exception goes to
    the log only. *)
Theorem handler_internal_failure
  (json_loads : string -> outcome value) (json_dumps : value -> string)
  (create_ : completion_request -> outcome chat_completion)
  (request : http_request) (t t1 : trace) (e : exn) :
  handler_try json_loads json_dumps create_ request t = (Raise e, t1) ->
  handler json_loads json_dumps create_ request t
  = (Return (VDict [("statusCode", VInt 500);
                    ("body", VStr (json_dumps apology))]),
     (t1 ++ [LogError "Error processing request: " e])%list) /\
  speech_shaped apology = true /\
  should_end apology = Some (VBool true) /\
  speech_text apology
  = Some (VStr "Sorry, I encountered an error. Please try again.").
Proof.
  intros H. split; [|repeat split].
  exact (handler_except json_loads json_dumps create_ request t t1 e H).
Qed.

Lemma handler_internal_failure_witness :
  handler Codec.loads Codec.dumps Samples.service_down
    (Samples.post Samples.intent_missing_text) []
  = (Return (VDict [("statusCode", VInt 500);
                    ("body", VStr (Codec.dumps apology))]),
     ([] ++ [LogError "Error processing request: " (KeyError "intent")])%list) /\
  speech_shaped apology = true /\
  should_end apology = Some (VBool true) /\
  speech_text apology
  = Some (VStr "Sorry, I encountered an error. Please try again.").
Proof.
  apply (handler_internal_failure Codec.loads Codec.dumps Samples.service_down
           (Samples.post Samples.intent_missing_text) [] [] (KeyError "intent")).
  vm_compute. reflexivity.
Defined.

(** C1 as stated fails: on the intent request that names no intent the
    router raises, and the status of the answer is 500. *)
Lemma handler_status_counterexample :
  handler_try Codec.loads Codec.dumps Samples.service_down
    (Samples.post Samples.intent_missing_text) []
  = (Raise (KeyError "intent"), []) /\
  exists ans t',
    handler Codec.loads Codec.dumps Samples.service_down
      (Samples.post Samples.intent_missing_text) [] = (Return ans, t') /\
    subscript ans "statusCode" = Return (VInt 500) /\
    subscript ans "statusCode" <> Return (VInt 200).
Proof.
  split; [vm_compute; reflexivity|].
  eexists; eexists. split; [vm_compute; reflexivity|].
  split; [reflexivity | discriminate].
Qed.

(** C4, as the code has it.  A method other than POST is rejected with
    status 405 and a request document without a truthy [request] field with
    status 400, both with a body of the form [{error: text}] and without a
    log entry.  Those are the only answers that are not response documents:
    every other request, the one whose body cannot be decoded included, is
    answered either with status 200 and a response document of the router
    (speech-shaped, or the empty one of a session-ended request) or with
    status 500 and the speech-shaped apology. *)
Theorem handler_answers
  (json_loads : string -> outcome value) (json_dumps : value -> string)
  (create_ : completion_request -> outcome chat_completion)
  (request : http_request) (t : trace) :
  exists ans t',
    handler json_loads json_dumps create_ request t = (Return ans, t') /\
    if negb (String.eqb (method request) "POST")
    then ans = VDict [("statusCode", VInt 405);
                      ("body",
                       VStr (json_dumps
                               (VDict [("error", VStr "Method not allowed")])))]
         /\ t' = t
    else
      match request_document json_loads request t with
      | (Return alexa_request, _) =>
          match get alexa_request "request" VNone with
          | Return r =>
              if truthy r
              then (exists resp,
                      ans = ok_answer json_dumps resp /\
                      valid_response resp = true /\
                      (speech_shaped resp = true \/
                       resp = handle_session_ended_request)) \/
                   ans = failure_answer json_dumps
              else ans = VDict [("statusCode", VInt 400);
                                ("body",
                                 VStr (json_dumps
                                         (VDict [("error",
                                                  VStr "Invalid Alexa request")])))]
                   /\ t' = t
          | Raise _ => ans = failure_answer json_dumps
          end
      | (Raise _, _) => ans = failure_answer json_dumps
      end.
Proof.
  pose proof (handler_try_cases json_loads json_dumps create_ request t) as H.
  rewrite request_document_pure.
  destruct (negb (String.eqb (method request) "POST")).
  { eexists; eexists; split; [apply handler_no_except; exact H|].
    split; reflexivity. }
  destruct (fst (request_document json_loads request [])) as [doc|e].
  2:{ eexists; eexists; split; [apply handler_except; exact H | reflexivity]. }
  destruct (get doc "request" VNone) as [r|e] eqn:Hget.
  2:{ eexists; eexists; split; [apply handler_except; exact H | reflexivity]. }
  destruct (truthy r) eqn:Hr.
  2:{ eexists; eexists; split; [apply handler_no_except; exact H|].
      split; reflexivity. }
  pose proof (process_alexa_request_routable create_ doc t) as Hrt.
  destruct (routable doc).
  - destruct Hrt as (resp & t' & Hp & Hv & Hs). rewrite Hp in H.
    eexists; eexists; split; [apply handler_no_except; exact H|].
    left. exists resp. split; [reflexivity | split; assumption].
  - destruct Hrt as (e & Hp). rewrite Hp in H.
    eexists; eexists; split; [apply handler_except; exact H|].
    right. reflexivity.
Qed.

(** C4 as stated fails for a body that cannot be decoded: the decoder
    raises, and the answer is the apology with status 500, not a 400
    rejection. *)
Lemma handler_undecodable_counterexample :
  Codec.loads "{" = Raise JSONDecodeError /\
  exists ans t',
    handler Codec.loads Codec.dumps Samples.service_down (Samples.post "{") []
    = (Return ans, t') /\
    subscript ans "statusCode" = Return (VInt 500) /\
    subscript ans "statusCode" <> Return (VInt 400) /\
    subscript ans "body" = Return (VStr (Codec.dumps apology)) /\
    speech_shaped apology = true.
Proof.
  split; [vm_compute; reflexivity|].
  eexists; eexists. split; [vm_compute; reflexivity|].
  split; [reflexivity|]. split; [discriminate|]. split; reflexivity.
Qed.

(** ** The handler at work *)

Example handler_launch :
  handler Codec.loads Codec.dumps Samples.service_down
    (Samples.post Samples.launch_text) []
  = (Return (ok_answer Codec.dumps handle_launch_request), []).
Proof. vm_compute. reflexivity. Qed.

Example handler_stop :
  handler Codec.loads Codec.dumps Samples.service_down
    (Samples.post Samples.stop_text) []
  = (Return (VDict [("statusCode", VInt 200);
                    ("headers", VDict [("Content-Type", VStr "application/json")]);
                    ("body", VStr Samples.goodbye_text)]), []).
Proof. vm_compute. reflexivity. Qed.

Example handler_get :
  handler Codec.loads Codec.dumps Samples.service_down
    {| method := "GET"; body := None; json := None |} []
  = (Return (rejection Codec.dumps 405 "Method not allowed"), []).
Proof. vm_compute. reflexivity. Qed.

Example handler_no_request_field :
  handler Codec.loads Codec.dumps Samples.service_down (Samples.post "{}") []
  = (Return (rejection Codec.dumps 400 "Invalid Alexa request"), []).
Proof. vm_compute. reflexivity. Qed.

Example handler_chat :
  handler Codec.loads Codec.dumps (Samples.service_says "  It is sunny. ")
    {| method := "POST"; body := None;
       json := Some (Samples.intent_envelope "ChatIntent"
                       [("slots",
                         VDict [("query", VDict [("value", VStr "weather")])])]) |}
    []
  = (Return (ok_answer Codec.dumps
               (VDict [("version", VStr "1.0");
                       ("response",
                        VDict [("outputSpeech", plain_text (VStr "It is sunny."));
                               ("shouldEndSession", VBool false)])])),
     [ChatCompletion (chat_request (VStr "weather"))]).
Proof. vm_compute. reflexivity. Qed.

(** ** The other rows of the dispatch *)

Lemma eq_str_false (v : value) (lit : string) :
  v <> VStr lit -> eq_str v lit = false.
Proof.
  intros H. destruct (eq_str v lit) eqn:E; [|reflexivity].
  apply eq_str_true in E. contradiction.
Qed.

Lemma get_of_subscript (v : value) (k : string) (x default : value) :
  subscript v k = Return x -> get v k default = Return x.
Proof.
  intros H. apply subscript_inv in H as (d & -> & H). simpl. now rewrite H.
Qed.

(** The lookups of the router, read off a path of the envelope. *)
Lemma dig_request_type (alexa_request ty : value) :
  dig alexa_request ["request"; "type"] = Some ty ->
  exists rq,
    subscript alexa_request "request" = Return rq /\
    subscript rq "type" = Return ty.
Proof.
  intros H. apply dig_step in H as (rq & H1 & H).
  apply dig_step in H as (ty' & H2 & [= ->]). eauto.
Qed.

Lemma dig_intent_name (alexa_request rq name : value) :
  subscript alexa_request "request" = Return rq ->
  dig alexa_request ["request"; "intent"; "name"] = Some name ->
  exists intent,
    subscript rq "intent" = Return intent /\
    subscript intent "name" = Return name.
Proof.
  intros H1 H. apply dig_step in H as (rq' & H1' & H).
  rewrite H1 in H1'. injection H1' as <-.
  apply dig_step in H as (intent & H3 & H).
  apply dig_step in H as (nm & H4 & [= ->]). eauto.
Qed.

(** A help intent is answered with the help text; the session stays open,
    there is no reprompt, and nothing is logged or asked of the service. *)
Theorem help_intent_response
  (create_ : completion_request -> outcome chat_completion)
  (alexa_request : value) (t : trace) :
  dig alexa_request ["request"; "type"] = Some (VStr "IntentRequest") ->
  dig alexa_request ["request"; "intent"; "name"]
  = Some (VStr "AMAZON.HelpIntent") ->
  exists resp,
    process_alexa_request create_ alexa_request t = (Return resp, t) /\
    speech_text resp
    = Some (VStr "I'm your AI assistant. You can ask me questions, get information, or have a conversation. Just say what you need help with!") /\
    should_end resp = Some (VBool false) /\
    reprompt_text resp = None /\
    speech_shaped resp = true.
Proof.
  intros Hty Hname.
  apply dig_request_type in Hty as (rq & H1 & H2).
  destruct (dig_intent_name _ _ _ H1 Hname) as (intent & H3 & H4).
  exists handle_help_intent.
  rewrite (process_alexa_request_cases create_ _ _ _ t H1 H2).
  rewrite (handle_intent_request_cases create_ _ _ _ _ t H1 H3 H4).
  repeat split.
Qed.

Lemma help_intent_response_witness :
  exists resp,
    process_alexa_request Samples.service_down
      (Samples.intent_envelope "AMAZON.HelpIntent" []) []
    = (Return resp, []) /\
    speech_text resp
    = Some (VStr "I'm your AI assistant. You can ask me questions, get information, or have a conversation. Just say what you need help with!") /\
    should_end resp = Some (VBool false) /\
    reprompt_text resp = None /\
    speech_shaped resp = true.
Proof.
  exact (help_intent_response Samples.service_down
           (Samples.intent_envelope "AMAZON.HelpIntent" []) []
           eq_refl eq_refl).
Defined.

(** A session-ended request is answered with the version tag and an empty
    response object: no speech, no session flag, nothing logged. *)
Theorem session_ended_response
  (create_ : completion_request -> outcome chat_completion)
  (alexa_request : value) (t : trace) :
  dig alexa_request ["request"; "type"] = Some (VStr "SessionEndedRequest") ->
  process_alexa_request create_ alexa_request t
  = (Return (VDict [("version", VStr "1.0"); ("response", VDict [])]), t).
Proof.
  intros Hty. apply dig_request_type in Hty as (rq & H1 & H2).
  rewrite (process_alexa_request_cases create_ _ _ _ t H1 H2). reflexivity.
Qed.

Lemma session_ended_response_witness :
  process_alexa_request Samples.service_down
    (VDict [("request",
             VDict [("type", VStr "SessionEndedRequest");
                    ("reason", VStr "USER_INITIATED")])]) []
  = (Return (VDict [("version", VStr "1.0"); ("response", VDict [])]), []).
Proof.
  exact (session_ended_response Samples.service_down
           (VDict [("request",
                    VDict [("type", VStr "SessionEndedRequest");
                           ("reason", VStr "USER_INITIATED")])]) []
           eq_refl).
Defined.

(** A request whose type is none of the three known ones, a string or not,
    is answered with the unknown-type message and the session left open. *)
Theorem unknown_request_type_response
  (create_ : completion_request -> outcome chat_completion)
  (alexa_request ty : value) (t : trace) :
  dig alexa_request ["request"; "type"] = Some ty ->
  ty <> VStr "LaunchRequest" ->
  ty <> VStr "IntentRequest" ->
  ty <> VStr "SessionEndedRequest" ->
  exists resp,
    process_alexa_request create_ alexa_request t = (Return resp, t) /\
    speech_text resp = Some (VStr "Unknown request type") /\
    should_end resp = Some (VBool false) /\
    speech_shaped resp = true.
Proof.
  intros Hty N1 N2 N3. apply dig_request_type in Hty as (rq & H1 & H2).
  exists (create_error_response "Unknown request type").
  rewrite (process_alexa_request_cases create_ _ _ _ t H1 H2).
  rewrite (eq_str_false _ _ N1), (eq_str_false _ _ N2), (eq_str_false _ _ N3).
  repeat split.
Qed.

Lemma unknown_request_type_response_witness :
  exists resp,
    process_alexa_request Samples.service_down
      (VDict [("request", VDict [("type", VStr "launchrequest")])]) []
    = (Return resp, []) /\
    speech_text resp = Some (VStr "Unknown request type") /\
    should_end resp = Some (VBool false) /\
    speech_shaped resp = true.
Proof.
  apply (unknown_request_type_response Samples.service_down
           (VDict [("request", VDict [("type", VStr "launchrequest")])])
           (VStr "launchrequest") [] eq_refl); discriminate.
Defined.

(** An intent request whose name is none of the four known ones, a string
    or not, is answered with the did-not-understand message and the session
    left open; the slots are not looked at. *)
Theorem unknown_intent_response
  (create_ : completion_request -> outcome chat_completion)
  (alexa_request name : value) (t : trace) :
  dig alexa_request ["request"; "type"] = Some (VStr "IntentRequest") ->
  dig alexa_request ["request"; "intent"; "name"] = Some name ->
  name <> VStr "ChatIntent" ->
  name <> VStr "AMAZON.HelpIntent" ->
  name <> VStr "AMAZON.CancelIntent" ->
  name <> VStr "AMAZON.StopIntent" ->
  exists resp,
    process_alexa_request create_ alexa_request t = (Return resp, t) /\
    speech_text resp = Some (VStr "I didn't understand that request.") /\
    should_end resp = Some (VBool false) /\
    speech_shaped resp = true.
Proof.
  intros Hty Hname N1 N2 N3 N4.
  apply dig_request_type in Hty as (rq & H1 & H2).
  destruct (dig_intent_name _ _ _ H1 Hname) as (intent & H3 & H4).
  exists (create_error_response "I didn't understand that request.").
  rewrite (process_alexa_request_cases create_ _ _ _ t H1 H2).
  rewrite (handle_intent_request_cases create_ _ _ _ _ t H1 H3 H4).
  rewrite (eq_str_false _ _ N1), (eq_str_false _ _ N2),
    (eq_str_false _ _ N3), (eq_str_false _ _ N4).
  repeat split.
Qed.

Lemma unknown_intent_response_witness :
  exists resp,
    process_alexa_request Samples.service_down
      (Samples.intent_envelope "chatintent"
         [("slots", VDict [("query", VDict [("value", VStr "hello")])])]) []
    = (Return resp, []) /\
    speech_text resp = Some (VStr "I didn't understand that request.") /\
    should_end resp = Some (VBool false) /\
    speech_shaped resp = true.
Proof.
  apply (unknown_intent_response Samples.service_down
           (Samples.intent_envelope "chatintent"
              [("slots", VDict [("query", VDict [("value", VStr "hello")])])])
           (VStr "chatintent") [] eq_refl eq_refl); discriminate.
Defined.

(** ** The chat intent, end to end *)

Lemma chat_user_query_value (alexa_request q : value) :
  dig alexa_request ["request"; "intent"; "slots"; "query"; "value"] = Some q ->
  fst (chat_user_query alexa_request []) = Return q.
Proof.
  intros H.
  apply dig_step in H as (rq & H1 & H).
  apply dig_step in H as (intent & H2 & H).
  apply dig_step in H as (slots & H3 & H).
  apply dig_step in H as (query & H4 & H).
  apply dig_step in H as (v & H5 & [= ->]).
  unfold chat_user_query, bind, lift. rewrite H1, H2.
  rewrite (get_of_subscript _ _ _ (VDict []) H3).
  rewrite (get_of_subscript _ _ _ (VDict []) H4).
  rewrite (get_of_subscript _ _ _ (VStr "") H5). reflexivity.
Qed.

Lemma chat_user_query_unreadable (alexa_request rq : value)
  (intent : list (string * value)) :
  subscript alexa_request "request" = Return rq ->
  subscript rq "intent" = Return (VDict intent) ->
  query_slot_unreadable intent = true ->
  fst (chat_user_query alexa_request []) = Raise AttributeError.
Proof.
  intros H1 H2 Hq. unfold chat_user_query, bind, lift. rewrite H1, H2.
  unfold query_slot_unreadable in Hq. unfold get at 1.
  destruct (dict_get "slots" intent) as [slots|]; [|discriminate].
  destruct slots as [| | | | | |slots]; try reflexivity. simpl.
  destruct (dict_get "query" slots) as [q|]; [|discriminate]. simpl.
  destruct q; try reflexivity. discriminate.
Qed.

Lemma chat_user_id_readable (d : list (string * value)) :
  if session_unreadable d
  then fst (chat_user_id (VDict d) []) = Raise AttributeError
  else exists u, fst (chat_user_id (VDict d) []) = Return u.
Proof.
  unfold session_unreadable, chat_user_id, bind, lift. cbn [get].
  destruct (dict_get "session" d) as [session|]; simpl.
  - destruct session as [| | | | | |session]; try reflexivity. simpl.
    destruct (dict_get "user" session) as [u|]; simpl.
    + destruct u as [| | | | | |u]; try reflexivity. simpl.
      destruct (dict_get "userId" u); eauto.
    + eauto.
  - eauto.
Qed.

Lemma router_to_chat_intent
  (create_ : completion_request -> outcome chat_completion)
  (alexa_request : value) (t : trace) :
  dig alexa_request ["request"; "type"] = Some (VStr "IntentRequest") ->
  dig alexa_request ["request"; "intent"; "name"] = Some (VStr "ChatIntent") ->
  process_alexa_request create_ alexa_request t
  = handle_chat_intent create_ alexa_request t.
Proof.
  intros Hty Hname.
  apply dig_request_type in Hty as (rq & H1 & H2).
  destruct (dig_intent_name _ _ _ H1 Hname) as (intent & H3 & H4).
  rewrite (process_alexa_request_cases create_ _ _ _ t H1 H2).
  rewrite (handle_intent_request_cases create_ _ _ _ _ t H1 H3 H4).
  reflexivity.
Qed.

(** A chat intent with a query, a readable session and a service that
    answers with a text: the response carries that text, stripped and cut
    to size, the session stays open, and the one thing that happened is the
    completion call for the query. *)
Theorem chat_intent_answer
  (create_ : completion_request -> outcome chat_completion)
  (d : list (string * value)) (q : value) (t : trace)
  (s : string) (rest : list choice) :
  dig (VDict d) ["request"; "type"] = Some (VStr "IntentRequest") ->
  dig (VDict d) ["request"; "intent"; "name"] = Some (VStr "ChatIntent") ->
  dig (VDict d) ["request"; "intent"; "slots"; "query"; "value"] = Some q ->
  truthy q = true ->
  session_unreadable d = false ->
  create_ (chat_request q)
  = Return {| choices := {| message := {| content := Some s |} |} :: rest |} ->
  process_alexa_request create_ (VDict d) t
  = (Return
       (VDict [("version", VStr "1.0");
               ("response",
                VDict [("outputSpeech",
                        VDict [("type", VStr "PlainText");
                               ("text", VStr (shortened s))]);
                       ("shouldEndSession", VBool false)])]),
     (t ++ [ChatCompletion (chat_request q)])%list).
Proof.
  intros Hty Hname Hq Htq Hs Hc.
  rewrite (router_to_chat_intent create_ _ t Hty Hname).
  rewrite handle_chat_intent_cases, (chat_user_query_value _ _ Hq), Htq.
  pose proof (chat_user_id_readable d) as Hu. rewrite Hs in Hu.
  destruct Hu as (u & ->).
  pose proof (generate_ai_response_cases create_ q u t) as Hg.
  cbv zeta in Hg. rewrite Hc in Hg. simpl in Hg. rewrite Hg. reflexivity.
Qed.

Lemma chat_intent_answer_witness :
  process_alexa_request (Samples.service_says "  It is sunny. ")
    (Samples.intent_envelope "ChatIntent"
       [("slots", VDict [("query", VDict [("value", VStr "weather")])])]) []
  = (Return
       (VDict [("version", VStr "1.0");
               ("response",
                VDict [("outputSpeech",
                        VDict [("type", VStr "PlainText");
                               ("text", VStr (shortened "  It is sunny. "))]);
                       ("shouldEndSession", VBool false)])]),
     ([] ++ [ChatCompletion (chat_request (VStr "weather"))])%list).
Proof.
  exact (chat_intent_answer (Samples.service_says "  It is sunny. ")
           [("request",
             VDict [("type", VStr "IntentRequest");
                    ("intent",
                     VDict [("name", VStr "ChatIntent");
                            ("slots",
                             VDict [("query",
                                     VDict [("value", VStr "weather")])])])])]
           (VStr "weather") [] "  It is sunny. " []
           eq_refl eq_refl eq_refl eq_refl eq_refl eq_refl).
Defined.

(** The same request when the completion call fails: the response is an
    ordinary chat answer carrying the fallback sentence, the session stays
    open, and the failure is logged once, by the responder. *)
Theorem chat_intent_service_failure
  (create_ : completion_request -> outcome chat_completion)
  (d : list (string * value)) (q : value) (t : trace) :
  dig (VDict d) ["request"; "type"] = Some (VStr "IntentRequest") ->
  dig (VDict d) ["request"; "intent"; "name"] = Some (VStr "ChatIntent") ->
  dig (VDict d) ["request"; "intent"; "slots"; "query"; "value"] = Some q ->
  truthy q = true ->
  session_unreadable d = false ->
  completion_failed (create_ (chat_request q)) = true ->
  exists e,
    process_alexa_request create_ (VDict d) t
    = (Return
         (VDict [("version", VStr "1.0");
                 ("response",
                  VDict [("outputSpeech",
                          VDict [("type", VStr "PlainText");
                                 ("text", VStr fallback_text)]);
                         ("shouldEndSession", VBool false)])]),
       (t ++ [ChatCompletion (chat_request q);
              LogError "OpenAI API error: " e])%list).
Proof.
  intros Hty Hname Hq Htq Hs Hf.
  rewrite (router_to_chat_intent create_ _ t Hty Hname).
  rewrite handle_chat_intent_cases, (chat_user_query_value _ _ Hq), Htq.
  pose proof (chat_user_id_readable d) as Hu. rewrite Hs in Hu.
  destruct Hu as (u & ->).
  pose proof (generate_ai_response_cases create_ q u t) as Hg.
  cbv zeta in Hg. unfold completion_failed in Hf.
  destruct (create_ (chat_request q)) as [r|e].
  - destruct (choices r) as [|c cs].
    + exists IndexError. rewrite Hg, <- app_assoc. reflexivity.
    + destruct (content (message c)); [discriminate|].
      exists AttributeError. rewrite Hg, <- app_assoc. reflexivity.
  - exists e. rewrite Hg, <- app_assoc. reflexivity.
Qed.

Lemma chat_intent_service_failure_witness :
  exists e,
    process_alexa_request Samples.service_down
      (Samples.intent_envelope "ChatIntent"
         [("slots", VDict [("query", VDict [("value", VStr "weather")])])]) []
    = (Return
         (VDict [("version", VStr "1.0");
                 ("response",
                  VDict [("outputSpeech",
                          VDict [("type", VStr "PlainText");
                                 ("text", VStr fallback_text)]);
                         ("shouldEndSession", VBool false)])]),
       ([] ++ [ChatCompletion (chat_request (VStr "weather"));
               LogError "OpenAI API error: " e])%list).
Proof.
  exact (chat_intent_service_failure Samples.service_down
           [("request",
             VDict [("type", VStr "IntentRequest");
                    ("intent",
                     VDict [("name", VStr "ChatIntent");
                            ("slots",
                             VDict [("query",
                                     VDict [("value", VStr "weather")])])])])]
           (VStr "weather") []
           eq_refl eq_refl eq_refl eq_refl eq_refl eq_refl).
Defined.

(** A [slots] field, or a [query] slot, that is present but is no mapping
    (null, a list, a string) is not read as a missing one: the chat intent
    answers with the trouble message, logs an [AttributeError], and does not
    call the service. *)
Theorem chat_intent_unreadable_slots
  (create_ : completion_request -> outcome chat_completion)
  (alexa_request : value) (intent : list (string * value)) (t : trace) :
  dig alexa_request ["request"; "type"] = Some (VStr "IntentRequest") ->
  dig alexa_request ["request"; "intent"] = Some (VDict intent) ->
  dict_get "name" intent = Some (VStr "ChatIntent") ->
  query_slot_unreadable intent = true ->
  process_alexa_request create_ alexa_request t
  = (Return (create_error_response
               "Sorry, I had trouble processing your request."),
     (t ++ [LogError "Error in chat intent: " AttributeError])%list).
Proof.
  intros Hty Hin Hname Hq.
  assert (Hn : dig alexa_request ["request"; "intent"; "name"]
               = Some (VStr "ChatIntent")).
  { apply dig_step in Hin as (rq & H1 & Hin).
    apply dig_step in Hin as (i & H3 & [= ->]).
    rewrite (dig_subscript _ _ _ _ H1), (dig_subscript _ _ _ _ H3).
    simpl. now rewrite Hname. }
  rewrite (router_to_chat_intent create_ _ t Hty Hn).
  apply dig_step in Hin as (rq & H1 & Hin).
  apply dig_step in Hin as (i & H3 & [= ->]).
  rewrite handle_chat_intent_cases.
  rewrite (chat_user_query_unreadable _ _ _ H1 H3 Hq). reflexivity.
Qed.

Lemma chat_intent_unreadable_slots_witness :
  process_alexa_request (Samples.service_says "never asked")
    (Samples.intent_envelope "ChatIntent" [("slots", VNone)]) []
  = (Return (create_error_response
               "Sorry, I had trouble processing your request."),
     ([] ++ [LogError "Error in chat intent: " AttributeError])%list).
Proof.
  exact (chat_intent_unreadable_slots (Samples.service_says "never asked")
           (Samples.intent_envelope "ChatIntent" [("slots", VNone)])
           _ [] eq_refl eq_refl eq_refl eq_refl).
Defined.

(** With a query in hand, a [session], or a [user] in it, that is present
    but is no mapping stops the chat intent before the completion call: the
    answer is the trouble message and the service is not asked. *)
Theorem chat_intent_unreadable_session
  (create_ : completion_request -> outcome chat_completion)
  (d : list (string * value)) (q : value) (t : trace) :
  dig (VDict d) ["request"; "type"] = Some (VStr "IntentRequest") ->
  dig (VDict d) ["request"; "intent"; "name"] = Some (VStr "ChatIntent") ->
  dig (VDict d) ["request"; "intent"; "slots"; "query"; "value"] = Some q ->
  truthy q = true ->
  session_unreadable d = true ->
  process_alexa_request create_ (VDict d) t
  = (Return (create_error_response
               "Sorry, I had trouble processing your request."),
     (t ++ [LogError "Error in chat intent: " AttributeError])%list).
Proof.
  intros Hty Hname Hq Htq Hs.
  rewrite (router_to_chat_intent create_ _ t Hty Hname).
  rewrite handle_chat_intent_cases, (chat_user_query_value _ _ Hq), Htq.
  pose proof (chat_user_id_readable d) as Hu. rewrite Hs in Hu.
  rewrite Hu. reflexivity.
Qed.

Lemma chat_intent_unreadable_session_witness :
  process_alexa_request (Samples.service_says "never asked")
    (VDict [("session", VNone);
            ("request",
             VDict [("type", VStr "IntentRequest");
                    ("intent",
                     VDict [("name", VStr "ChatIntent");
                            ("slots",
                             VDict [("query",
                                     VDict [("value", VStr "weather")])])])])])
    []
  = (Return (create_error_response
               "Sorry, I had trouble processing your request."),
     ([] ++ [LogError "Error in chat intent: " AttributeError])%list).
Proof.
  exact (chat_intent_unreadable_session (Samples.service_says "never asked")
           (("session", VNone) :: [("request",
             VDict [("type", VStr "IntentRequest");
                    ("intent",
                     VDict [("name", VStr "ChatIntent");
                            ("slots",
                             VDict [("query",
                                     VDict [("value", VStr "weather")])])])])])
           (VStr "weather") [] eq_refl eq_refl eq_refl eq_refl eq_refl).
Defined.

(** ** What the responder returns *)

Lemma lstrip_starts (s : string) : starts_blank (lstrip s) = false.
Proof.
  induction s as [|c s IH]; simpl; [reflexivity|].
  destruct (is_space c) eqn:E; [exact IH | simpl; exact E].
Qed.

Lemma rstrip_starts (s : string) :
  starts_blank s = false -> starts_blank (rstrip s) = false.
Proof.
  destruct s as [|c s]; simpl; [reflexivity|]. intros H.
  destruct (rstrip s).
  - rewrite H. simpl. exact H.
  - simpl. exact H.
Qed.

Lemma rstrip_ends (s : string) : ends_blank (rstrip s) = false.
Proof.
  induction s as [|c s IH]; simpl; [reflexivity|].
  destruct (rstrip s) as [|c' r].
  - destruct (is_space c) eqn:E; simpl; [reflexivity | exact E].
  - exact IH.
Qed.

Lemma ends_blank_app (x y : string) :
  y <> EmptyString -> ends_blank (x ++ y) = ends_blank y.
Proof.
  intros Hy. induction x as [|c x IH]; simpl; [reflexivity|].
  destruct (x ++ y)%string eqn:E; [|exact IH].
  destruct x; simpl in E; [contradiction | discriminate].
Qed.

Lemma lstrip_blank (s : string) : blank s = true -> lstrip s = EmptyString.
Proof.
  induction s as [|c s IH]; simpl; [reflexivity|].
  intros H. apply andb_prop in H as [Hc Hs]. rewrite Hc. exact (IH Hs).
Qed.

Lemma length_lstrip (s : string) :
  (String.length (lstrip s) <= String.length s)%nat.
Proof.
  induction s as [|c s IH]; simpl; [lia|].
  destruct (is_space c); simpl; lia.
Qed.

Lemma length_rstrip (s : string) :
  (String.length (rstrip s) <= String.length s)%nat.
Proof.
  induction s as [|c s IH]; simpl; [lia|].
  destruct (rstrip s); [destruct (is_space c)|]; simpl in *; lia.
Qed.

Lemma len_strip (s : string) : len (strip s) <= len s.
Proof.
  unfold len, strip.
  pose proof (length_rstrip (lstrip s)). pose proof (length_lstrip s). lia.
Qed.

Lemma strip_trimmed (s : string) :
  starts_blank (strip s) = false /\ ends_blank (strip s) = false.
Proof.
  unfold strip. split; [|apply rstrip_ends].
  apply rstrip_starts, lstrip_starts.
Qed.

Lemma shortened_trimmed (s : string) :
  starts_blank (shortened s) = false /\ ends_blank (shortened s) = false.
Proof.
  unfold shortened. destruct (strip_trimmed s) as [Hs He].
  destruct (len (strip s) >? 8000) eqn:E; [|now split].
  split.
  - rewrite Z.gtb_ltb in E. apply Z.ltb_lt in E.
    unfold slice_to, len in *.
    destruct (Z.to_nat 7900) as [|n] eqn:En; [lia|].
    destruct (strip s) as [|c r]; [simpl in E; lia|].
    simpl. exact Hs.
  - rewrite ends_blank_app by discriminate. reflexivity.
Qed.

(** Whatever the service does, the text the responder returns neither
    starts nor ends with whitespace. *)
Theorem responder_text_trimmed
  (create_ : completion_request -> outcome chat_completion)
  (user_query user_id : value) (t : trace) :
  exists text t',
    generate_ai_response create_ user_query user_id t = (Return text, t') /\
    starts_blank text = false /\ ends_blank text = false.
Proof.
  pose proof (generate_ai_response_cases create_ user_query user_id t) as H.
  cbv zeta in H.
  destruct (create_ (chat_request user_query)) as [r|e].
  - destruct (choices r) as [|c cs].
    + eexists; eexists; split; [exact H | split; reflexivity].
    + destruct (content (message c)) as [s|].
      * eexists; eexists; split; [exact H | exact (shortened_trimmed s)].
      * eexists; eexists; split; [exact H | split; reflexivity].
  - eexists; eexists; split; [exact H | split; reflexivity].
Qed.

(** A completion made of whitespace only is not a failure: the responder
    returns the empty text, not the fallback sentence, and logs nothing. *)
Theorem blank_completion_empty_text
  (create_ : completion_request -> outcome chat_completion)
  (user_query user_id : value) (t : trace) (s : string) (rest : list choice) :
  blank s = true ->
  create_ (chat_request user_query)
  = Return {| choices := {| message := {| content := Some s |} |} :: rest |} ->
  generate_ai_response create_ user_query user_id t
  = (Return EmptyString,
     (t ++ [ChatCompletion (chat_request user_query)])%list).
Proof.
  intros Hb Hc.
  pose proof (generate_ai_response_cases create_ user_query user_id t) as H.
  cbv zeta in H. rewrite Hc in H. simpl in H. rewrite H.
  unfold strip. rewrite (lstrip_blank s Hb). reflexivity.
Qed.

Lemma blank_completion_empty_text_witness :
  generate_ai_response (Samples.service_says (" " ++ nl ++ " "))
    (VStr "hello") (VStr "unknown") []
  = (Return EmptyString,
     ([] ++ [ChatCompletion (chat_request (VStr "hello"))])%list).
Proof.
  exact (blank_completion_empty_text (Samples.service_says (" " ++ nl ++ " "))
           (VStr "hello") (VStr "unknown") [] (" " ++ nl ++ " ") []
           eq_refl eq_refl).
Defined.

(** A completion of at most 8000 characters is never cut: the responder
    returns it stripped, which is no longer than the completion. *)
Theorem short_completion_not_cut
  (create_ : completion_request -> outcome chat_completion)
  (user_query user_id : value) (t : trace) (s : string) (rest : list choice) :
  len s <= 8000 ->
  create_ (chat_request user_query)
  = Return {| choices := {| message := {| content := Some s |} |} :: rest |} ->
  generate_ai_response create_ user_query user_id t
  = (Return (strip s), (t ++ [ChatCompletion (chat_request user_query)])%list)
  /\ len (strip s) <= len s.
Proof.
  intros Hl Hc. pose proof (len_strip s) as Hs. split; [|exact Hs].
  pose proof (generate_ai_response_cases create_ user_query user_id t) as H.
  cbv zeta in H. rewrite Hc in H. simpl in H. rewrite H.
  destruct (len (strip s) >? 8000) eqn:E; [|reflexivity].
  rewrite Z.gtb_ltb in E. apply Z.ltb_lt in E. lia.
Qed.

Lemma short_completion_not_cut_witness :
  generate_ai_response (Samples.service_says "  It is sunny. ")
    (VStr "weather") (VStr "unknown") []
  = (Return (strip "  It is sunny. "),
     ([] ++ [ChatCompletion (chat_request (VStr "weather"))])%list)
  /\ len (strip "  It is sunny. ") <= len "  It is sunny. ".
Proof.
  apply (short_completion_not_cut (Samples.service_says "  It is sunny. ")
           (VStr "weather") (VStr "unknown") [] "  It is sunny. " []).
  - vm_compute. discriminate.
  - reflexivity.
Defined.

(** ** What the session contributes *)

Lemma handle_chat_intent_same_request
  (create_ : completion_request -> outcome chat_completion)
  (d1 d2 : list (string * value)) (t : trace) :
  dict_get "request" d1 = dict_get "request" d2 ->
  session_unreadable d1 = false ->
  session_unreadable d2 = false ->
  handle_chat_intent create_ (VDict d1) t = handle_chat_intent create_ (VDict d2) t.
Proof.
  intros Hr H1 H2. rewrite !handle_chat_intent_cases.
  assert (Hq : fst (chat_user_query (VDict d1) [])
               = fst (chat_user_query (VDict d2) [])).
  { unfold chat_user_query, bind, lift. cbn [subscript]. now rewrite Hr. }
  rewrite Hq.
  destruct (fst (chat_user_query (VDict d2) [])) as [q|e]; [|reflexivity].
  destruct (truthy q); [|reflexivity].
  pose proof (chat_user_id_readable d1) as U1. rewrite H1 in U1.
  pose proof (chat_user_id_readable d2) as U2. rewrite H2 in U2.
  destruct U1 as (u1 & ->). destruct U2 as (u2 & ->). reflexivity.
Qed.

(** The answer is read off the [request] field alone.  Two envelopes with
    the same request and readable sessions get the same response and leave
    the same trace, whatever their user identifiers and other fields: the
    identifier is read and then sent nowhere. *)
Theorem session_content_irrelevant
  (create_ : completion_request -> outcome chat_completion)
  (d1 d2 : list (string * value)) (t : trace) :
  dict_get "request" d1 = dict_get "request" d2 ->
  session_unreadable d1 = false ->
  session_unreadable d2 = false ->
  process_alexa_request create_ (VDict d1) t
  = process_alexa_request create_ (VDict d2) t.
Proof.
  intros Hr H1 H2.
  pose proof (handle_chat_intent_same_request create_ d1 d2 t Hr H1 H2) as Hc.
  unfold process_alexa_request, handle_intent_request, bind, lift.
  cbn [subscript]. rewrite Hr.
  destruct (dict_get "request" d2) as [rq|]; [|reflexivity].
  destruct (subscript rq "type") as [ty|e]; [|reflexivity].
  destruct (eq_str ty "LaunchRequest"); [reflexivity|].
  destruct (eq_str ty "IntentRequest"); [|reflexivity].
  destruct (subscript rq "intent") as [intent|e]; [|reflexivity].
  destruct (subscript intent "name") as [name|e]; [|reflexivity].
  destruct (eq_str name "ChatIntent"); [exact Hc | reflexivity].
Qed.

Lemma session_content_irrelevant_witness :
  process_alexa_request (Samples.service_says "It is sunny.")
    (VDict [("session",
             VDict [("user", VDict [("userId", VStr "amzn1.ask.account.A1")])]);
            ("request",
             VDict [("type", VStr "IntentRequest");
                    ("intent",
                     VDict [("name", VStr "ChatIntent");
                            ("slots",
                             VDict [("query",
                                     VDict [("value", VStr "weather")])])])])])
    []
  = process_alexa_request (Samples.service_says "It is sunny.")
      (VDict [("request",
               VDict [("type", VStr "IntentRequest");
                      ("intent",
                       VDict [("name", VStr "ChatIntent");
                              ("slots",
                               VDict [("query",
                                       VDict [("value", VStr "weather")])])])]);
              ("version", VStr "1.0")])
      [].
Proof.
  exact (session_content_irrelevant (Samples.service_says "It is sunny.")
           [("session",
             VDict [("user", VDict [("userId", VStr "amzn1.ask.account.A1")])]);
            ("request",
             VDict [("type", VStr "IntentRequest");
                    ("intent",
                     VDict [("name", VStr "ChatIntent");
                            ("slots",
                             VDict [("query",
                                     VDict [("value", VStr "weather")])])])])]
           [("request",
             VDict [("type", VStr "IntentRequest");
                    ("intent",
                     VDict [("name", VStr "ChatIntent");
                            ("slots",
                             VDict [("query",
                                     VDict [("value", VStr "weather")])])])]);
            ("version", VStr "1.0")]
           [] eq_refl eq_refl eq_refl).
Defined.

(** ** What a request does to the outside *)

Lemma completions_app (t1 t2 : trace) :
  completions (t1 ++ t2)%list = (completions t1 + completions t2)%nat.
Proof. unfold completions. now rewrite filter_app, List.length_app. Qed.

Lemma generate_ai_response_trace
  (create_ : completion_request -> outcome chat_completion)
  (user_query user_id : value) (t : trace) :
  exists text added,
    generate_ai_response create_ user_query user_id t
    = (Return text, (t ++ added)%list) /\
    completions added = 1%nat.
Proof.
  pose proof (generate_ai_response_cases create_ user_query user_id t) as H.
  cbv zeta in H.
  destruct (create_ (chat_request user_query)) as [r|e].
  - destruct (choices r) as [|c cs].
    + rewrite <- app_assoc in H. eexists; eexists; split; [exact H|reflexivity].
    + destruct (content (message c)) as [s|].
      * eexists; eexists; split; [exact H|reflexivity].
      * rewrite <- app_assoc in H.
        eexists; eexists; split; [exact H|reflexivity].
  - rewrite <- app_assoc in H. eexists; eexists; split; [exact H|reflexivity].
Qed.

Lemma handle_chat_intent_trace
  (create_ : completion_request -> outcome chat_completion)
  (alexa_request : value) (t : trace) :
  exists added,
    snd (handle_chat_intent create_ alexa_request t) = (t ++ added)%list /\
    (completions added <= 1)%nat.
Proof.
  rewrite handle_chat_intent_cases.
  destruct (fst (chat_user_query alexa_request [])) as [q|e].
  2:{ eexists; split; [reflexivity | unfold completions; simpl; lia]. }
  destruct (truthy q).
  2:{ exists []. split; [simpl; now rewrite app_nil_r | unfold completions; simpl; lia]. }
  destruct (fst (chat_user_id alexa_request [])) as [u|e].
  2:{ eexists; split; [reflexivity | unfold completions; simpl; lia]. }
  destruct (generate_ai_response_trace create_ q u t)
    as (text & added & -> & Hc).
  exists added. split; [reflexivity | lia].
Qed.

(** Closes the goal of a branch that leaves the trace alone. *)
Ltac quiet :=
  exists []; simpl; rewrite app_nil_r;
  split; [reflexivity|]; split; [unfold completions; simpl; lia | reflexivity].

(** The router extends the trace, by one completion call at most, and by
    nothing at all unless the request is a chat intent. *)
Lemma process_alexa_request_trace
  (create_ : completion_request -> outcome chat_completion)
  (alexa_request : value) (t : trace) :
  exists added,
    snd (process_alexa_request create_ alexa_request t) = (t ++ added)%list /\
    (completions added <= 1)%nat /\
    (is_chat_intent alexa_request = false -> added = []).
Proof.
  unfold is_chat_intent in *.
  unfold process_alexa_request, bind, lift, ret.
  destruct (subscript alexa_request "request") as [rq|e] eqn:H1; [|quiet].
  destruct (subscript rq "type") as [ty|e] eqn:H2; [|quiet].
  rewrite (dig_subscript _ _ ["type"] _ H1) in *.
  rewrite (dig_subscript _ _ [] _ H2) in *.
  change (dig ty []) with (Some ty) in *.
  destruct (eq_str ty "LaunchRequest"); [quiet|].
  destruct (eq_str ty "IntentRequest"); [|destruct (eq_str ty _); quiet].
  unfold handle_intent_request, bind, lift, ret. rewrite H1.
  destruct (subscript rq "intent") as [intent|e] eqn:H3; [|quiet].
  destruct (subscript intent "name") as [name|e] eqn:H4; [|quiet].
  rewrite (dig_subscript _ _ ["intent"; "name"] _ H1) in *.
  rewrite (dig_subscript _ _ ["name"] _ H3) in *.
  rewrite (dig_subscript _ _ [] _ H4) in *.
  change (dig name []) with (Some name) in *.
  destruct (eq_str name "ChatIntent") eqn:En.
  - destruct (handle_chat_intent_trace create_ alexa_request t)
      as (added & Ha & Hc).
    exists added. split; [exact Ha|]. split; [exact Hc|].
    intros Hx. simpl in Hx. congruence.
  - destruct (eq_str name "AMAZON.HelpIntent"); [quiet|].
    destruct (eq_str name "AMAZON.CancelIntent" || eq_str name "AMAZON.StopIntent");
      quiet.
Qed.

(** Outside the chat intent the router is silent: it logs nothing and does
    not call the completion service, also when it raises. *)
Theorem router_quiet_outside_chat
  (create_ : completion_request -> outcome chat_completion)
  (alexa_request : value) (t : trace) :
  is_chat_intent alexa_request = false ->
  snd (process_alexa_request create_ alexa_request t) = t.
Proof.
  intros H.
  destruct (process_alexa_request_trace create_ alexa_request t)
    as (added & Ha & _ & Hq).
  rewrite Ha, (Hq H). apply app_nil_r.
Qed.

Lemma router_quiet_outside_chat_witness :
  snd (process_alexa_request (Samples.service_says "never asked")
         (Samples.intent_envelope "AMAZON.HelpIntent"
            [("slots", VDict [("query", VDict [("value", VStr "weather")])])])
         [LogError "Error in chat intent: " AttributeError])
  = [LogError "Error in chat intent: " AttributeError].
Proof.
  exact (router_quiet_outside_chat (Samples.service_says "never asked")
           (Samples.intent_envelope "AMAZON.HelpIntent"
              [("slots", VDict [("query", VDict [("value", VStr "weather")])])])
           [LogError "Error in chat intent: " AttributeError] eq_refl).
Defined.

(** The handler only ever adds to the trace, and what it adds holds at most
    one invocation of [client.chat.completions.create], whichever way the
    request is answered: the module has no loop around the call and does
    not invoke it again after a failure.  What the client does within one
    invocation, such as resending the request on its own, is not recorded
    in the trace. *)
Theorem handler_single_completion
  (json_loads : string -> outcome value) (json_dumps : value -> string)
  (create_ : completion_request -> outcome chat_completion)
  (request : http_request) (t : trace) :
  exists added,
    snd (handler json_loads json_dumps create_ request t) = (t ++ added)%list /\
    (completions added <= 1)%nat.
Proof.
  unfold handler, try_except.
  rewrite handler_try_cases.
  assert (Q0 : exists added, t = (t ++ added)%list /\ (completions added <= 1)%nat).
  { exists []. rewrite app_nil_r. split; [reflexivity|].
    unfold completions. simpl. lia. }
  assert (Q1 : forall e,
             exists added,
               (t ++ [LogError "Error processing request: " e])%list
               = (t ++ added)%list /\ (completions added <= 1)%nat).
  { intros e. eexists. split; [reflexivity|]. unfold completions. simpl. lia. }
  destruct (negb (String.eqb (method request) "POST")); [exact Q0|].
  destruct (fst (request_document json_loads request [])) as [doc|e];
    [|exact (Q1 e)].
  destruct (get doc "request" VNone) as [r|e]; [|exact (Q1 e)].
  destruct (truthy r); [|exact Q0].
  destruct (process_alexa_request_trace create_ doc t) as (added & Ha & Hc & _).
  destruct (process_alexa_request create_ doc t) as [[resp|e] t'];
    simpl in Ha; subst t'.
  - exists added. split; [reflexivity | exact Hc].
  - exists (added ++ [LogError "Error processing request: " e])%list.
    unfold logger_error, bind, emit, ret. simpl.
    rewrite app_assoc. split; [reflexivity|].
    rewrite completions_app. unfold completions at 2. simpl. lia.
Qed.

(** ** The status of an answer *)

Lemma routable_request_truthy (doc : value) :
  routable doc = true ->
  exists r, get doc "request" VNone = Return r /\ truthy r = true.
Proof.
  unfold routable. intros H.
  destruct (dig doc ["request"; "type"]) as [ty|] eqn:Hty; [|discriminate].
  apply dig_step in Hty as (rq & H1 & Hty).
  apply dig_step in Hty as (ty' & H2 & _).
  exists rq. split; [exact (get_of_subscript _ _ _ VNone H1)|].
  apply subscript_inv in H2 as (d & -> & H2).
  destruct d; [discriminate | reflexivity].
Qed.

(** For a POST whose document is decoded, the status follows the shape of
    the envelope.  A routable envelope is answered with status 200 and the
    encoded response of the router, also when that response is a degraded
    one; an envelope with a truthy [request] that cannot be routed is
    answered with status 500 and the apology, and the exception of the
    router is logged. *)
Theorem handler_status_by_shape
  (json_loads : string -> outcome value) (json_dumps : value -> string)
  (create_ : completion_request -> outcome chat_completion)
  (request : http_request) (doc : value) (t : trace) :
  method request = "POST" ->
  fst (request_document json_loads request []) = Return doc ->
  (routable doc = true ->
   exists resp t',
     process_alexa_request create_ doc t = (Return resp, t') /\
     handler json_loads json_dumps create_ request t
     = (Return (VDict [("statusCode", VInt 200);
                       ("headers",
                        VDict [("Content-Type", VStr "application/json")]);
                       ("body", VStr (json_dumps resp))]), t')) /\
  (routable doc = false ->
   forall r, get doc "request" VNone = Return r -> truthy r = true ->
   exists e,
     process_alexa_request create_ doc t = (Raise e, t) /\
     handler json_loads json_dumps create_ request t
     = (Return (VDict [("statusCode", VInt 500);
                       ("body", VStr (json_dumps apology))]),
        (t ++ [LogError "Error processing request: " e])%list)).
Proof.
  intros Hm Hdoc.
  pose proof (handler_try_cases json_loads json_dumps create_ request t) as H.
  rewrite Hm, Hdoc in H. simpl in H.
  pose proof (process_alexa_request_routable create_ doc t) as Hr.
  split; intros Hrt; rewrite Hrt in Hr.
  - destruct (routable_request_truthy doc Hrt) as (r & Hg & Ht).
    rewrite Hg, Ht in H.
    destruct Hr as (resp & t' & Hp & _). rewrite Hp in H.
    exists resp, t'. split; [exact Hp|].
    exact (handler_no_except _ _ _ _ _ _ _ H).
  - intros r Hg Ht. rewrite Hg, Ht in H.
    destruct Hr as (e & Hp). rewrite Hp in H.
    exists e. split; [exact Hp|].
    exact (handler_except _ _ _ _ _ _ _ H).
Qed.

Lemma handler_status_by_shape_witness :
  (exists resp t',
     process_alexa_request Samples.service_down
       (VDict [("request", VDict [("type", VStr "Reboot")])]) []
     = (Return resp, t') /\
     handler Codec.loads Codec.dumps Samples.service_down
       {| method := "POST"; body := None;
          json := Some (VDict [("request", VDict [("type", VStr "Reboot")])]) |}
       []
     = (Return (VDict [("statusCode", VInt 200);
                       ("headers",
                        VDict [("Content-Type", VStr "application/json")]);
                       ("body", VStr (Codec.dumps resp))]), t')) /\
  (exists e,
     process_alexa_request Samples.service_down
       (VDict [("request", VStr "LaunchRequest")]) []
     = (Raise e, []) /\
     handler Codec.loads Codec.dumps Samples.service_down
       {| method := "POST"; body := None;
          json := Some (VDict [("request", VStr "LaunchRequest")]) |} []
     = (Return (VDict [("statusCode", VInt 500);
                       ("body", VStr (Codec.dumps apology))]),
        ([] ++ [LogError "Error processing request: " e])%list)).
Proof.
  split.
  - exact (proj1 (handler_status_by_shape Codec.loads Codec.dumps
                    Samples.service_down
                    {| method := "POST"; body := None;
                       json := Some (VDict [("request",
                                             VDict [("type", VStr "Reboot")])]) |}
                    (VDict [("request", VDict [("type", VStr "Reboot")])]) []
                    eq_refl eq_refl) eq_refl).
  - exact (proj2 (handler_status_by_shape Codec.loads Codec.dumps
                    Samples.service_down
                    {| method := "POST"; body := None;
                       json := Some (VDict [("request", VStr "LaunchRequest")]) |}
                    (VDict [("request", VStr "LaunchRequest")]) []
                    eq_refl eq_refl) eq_refl
             (VStr "LaunchRequest") eq_refl eq_refl).
Defined.

(** A POST without a usable document (the decoder raises, the request
    object has neither [body] nor [json], or the document is no JSON
    object) never gets the 400 rejection: it is answered with status 500
    and the apology, and the exception is logged. *)
Theorem handler_unusable_document
  (json_loads : string -> outcome value) (json_dumps : value -> string)
  (create_ : completion_request -> outcome chat_completion)
  (request : http_request) (t : trace) :
  method request = "POST" ->
  (forall d, fst (request_document json_loads request []) <> Return (VDict d)) ->
  exists e,
    handler json_loads json_dumps create_ request t
    = (Return (VDict [("statusCode", VInt 500);
                      ("body", VStr (json_dumps apology))]),
       (t ++ [LogError "Error processing request: " e])%list).
Proof.
  intros Hm Hd.
  pose proof (handler_try_cases json_loads json_dumps create_ request t) as H.
  rewrite Hm in H. simpl in H.
  destruct (fst (request_document json_loads request [])) as [doc|e].
  - destruct doc as [| | | | | |d];
      try (exists AttributeError; exact (handler_except _ _ _ _ _ _ _ H)).
    exfalso. exact (Hd d eq_refl).
  - exists e. exact (handler_except _ _ _ _ _ _ _ H).
Qed.

Lemma handler_unusable_document_witness :
  exists e,
    handler Codec.loads Codec.dumps Samples.service_down
      (Samples.post "[1, 2]") []
    = (Return (VDict [("statusCode", VInt 500);
                      ("body", VStr (Codec.dumps apology))]),
       ([] ++ [LogError "Error processing request: " e])%list).
Proof.
  apply (handler_unusable_document Codec.loads Codec.dumps Samples.service_down
           (Samples.post "[1, 2]") []).
  - reflexivity.
  - intros d. vm_compute. discriminate.
Defined.

(** Every request gets an answer: the handler does not raise.  The answer
    has one of the four statuses 200, 400, 405 and 500 and a text body, and
    it carries the [Content-Type] header exactly when the status is 200. *)
Theorem handler_answer_shape
  (json_loads : string -> outcome value) (json_dumps : value -> string)
  (create_ : completion_request -> outcome chat_completion)
  (request : http_request) (t : trace) :
  exists ans t' status text,
    handler json_loads json_dumps create_ request t = (Return ans, t') /\
    dig ans ["statusCode"] = Some (VInt status) /\
    In status [200; 400; 405; 500] /\
    dig ans ["body"] = Some (VStr text) /\
    dig ans ["headers"]
    = if status =? 200
      then Some (VDict [("Content-Type", VStr "application/json")])
      else None.
Proof.
  pose proof (handler_try_cases json_loads json_dumps create_ request t) as H.
  destruct (negb (String.eqb (method request) "POST")).
  { exists (rejection json_dumps 405 "Method not allowed"), t, 405.
    eexists. split; [exact (handler_no_except _ _ _ _ _ _ _ H)|].
    simpl. intuition. }
  assert (F : forall e t1,
             handler_try json_loads json_dumps create_ request t = (Raise e, t1) ->
             exists ans t' status text,
               handler json_loads json_dumps create_ request t = (Return ans, t') /\
               dig ans ["statusCode"] = Some (VInt status) /\
               In status [200; 400; 405; 500] /\
               dig ans ["body"] = Some (VStr text) /\
               dig ans ["headers"]
               = if status =? 200
                 then Some (VDict [("Content-Type", VStr "application/json")])
                 else None).
  { intros e t1 He. exists (failure_answer json_dumps). eexists. exists 500.
    eexists. split; [exact (handler_except _ _ _ _ _ _ _ He)|].
    simpl. intuition. }
  destruct (fst (request_document json_loads request [])) as [doc|e];
    [|exact (F _ _ H)].
  destruct (get doc "request" VNone) as [r|e]; [|exact (F _ _ H)].
  destruct (truthy r).
  - destruct (process_alexa_request create_ doc t) as [[resp|e] t'];
      [|exact (F _ _ H)].
    exists (ok_answer json_dumps resp), t', 200.
    eexists. split; [exact (handler_no_except _ _ _ _ _ _ _ H)|].
    simpl. intuition.
  - exists (rejection json_dumps 400 "Invalid Alexa request"), t, 400.
    eexists. split; [exact (handler_no_except _ _ _ _ _ _ _ H)|].
    simpl. intuition.
Qed.
